(** * w3af grep plugin [retirejs]: a shallow embedding and its properties

    Source: [w3af/plugins/grep/retirejs.py].

    The plugin hands HTTP response bodies to the external [retire] program,
    parses the JSON document it writes and stores one knowledge-base record
    per vulnerable JavaScript library.

    The embedding follows the Python text method by method.  Mutable
    attributes of the plugin object, the temporary files, the knowledge base
    and the log are fields of one state record that every method threads;
    Python exceptions are the [Raise] outcome of a state-and-error monad, and
    side effects made before an exception is raised stay in the state, as
    they do in Python.

    What lies outside the file is a parameter of the development: the MD5
    digest, the JSON parser, the [retire] process, the temporary-name
    generator and Python's [str()] of non-string values.

    Modelling limits.  Strings are byte strings ([str.lower] maps [A-Z] only,
    no encoding errors are modelled); JSON numbers are integers; the file
    system is a flat map from paths to contents on which [os.remove] of an
    existing path succeeds; [subprocess] calls themselves do not raise
    [OSError]. *)

From Stdlib Require Import ZArith Ascii String List.
From stdpp Require Import base gmap strings list.

Set Warnings "-register-all,-clear-no-such-hyp".

Local Open Scope string_scope.
Local Open Scope Z_scope.
Local Open Scope list_scope.
Local Open Scope stdpp_scope.

(** ** Python values coming out of [json.loads] *)

(** A [dict] is kept as an association list; [dict_lookup] takes the first
    binding of a key.  Python's [None] is [JNull]. *)
Inductive json : Type :=
  | JNull
  | JBool (b : bool)
  | JNum (n : Z)
  | JStr (s : string)
  | JArr (items : list json)
  | JObj (fields : list (string * json)).

Inductive exn : Type :=
  | AttributeError
  | TypeError
  | ValueError
  | IOError
  | OSError
  | CalledProcessError.

Inductive result (A : Type) : Type :=
  | Ok (a : A)
  | Raise (e : exn).
Arguments Ok {A} a.
Arguments Raise {A} e.

Definition is_Ok {A} (r : result A) : bool :=
  match r with Ok _ => true | Raise _ => false end.

Fixpoint dict_lookup (fields : list (string * json)) (key : string) : option json :=
  match fields with
  | [] => None
  | (k, v) :: rest => if String.eqb k key then Some v else dict_lookup rest key
  end.

(** [obj.get(key, default)]: only a [dict] has the method. *)
Definition py_get (obj : json) (key : string) (dflt : json) : result json :=
  match obj with
  | JObj fields => Ok (default dflt (dict_lookup fields key))
  | _ => Raise AttributeError
  end.

(** Truth value of an object in a condition ([if not x]). *)
Definition py_truthy (v : json) : bool :=
  match v with
  | JNull => false
  | JBool b => b
  | JNum n => negb (n =? 0)
  | JStr s => negb (String.eqb s "")
  | JArr items => negb (Nat.eqb (List.length items) 0)
  | JObj fields => negb (Nat.eqb (List.length fields) 0)
  end.

(** [x is None]. *)
Definition is_None (v : json) : bool :=
  match v with JNull => true | _ => false end.

Fixpoint chars (s : string) : list json :=
  match s with
  | EmptyString => []
  | String c rest => JStr (String c EmptyString) :: chars rest
  end.

(** The elements a [for] loop visits: the items of a list, the characters
    of a string, the keys of a dict; anything else is not iterable. *)
Definition py_iter (v : json) : result (list json) :=
  match v with
  | JArr items => Ok items
  | JStr s => Ok (chars s)
  | JObj fields => Ok (List.map (fun kv => JStr (fst kv)) fields)
  | _ => Raise TypeError
  end.

(** [str.lower] on a byte string. *)
Definition lower_ascii (c : ascii) : ascii :=
  let n := N_of_ascii c in
  if ((65 <=? n) && (n <=? 90))%N then ascii_of_N (n + 32) else c.

Fixpoint lower (s : string) : string :=
  match s with
  | EmptyString => EmptyString
  | String c rest => String (lower_ascii c) (lower rest)
  end.

(** [v.lower()]: only strings have the method. *)
Definition py_lower (v : json) : result string :=
  match v with
  | JStr s => Ok (lower s)
  | _ => Raise AttributeError
  end.

(** ** Collaborators of the plugin *)

Record Request : Type := mkRequest {
  get_method : string
}.

Record Response : Type := mkResponse {
  get_code : Z;
  is_text_or_html : bool;
  get_url : string;
  get_uri : string;
  get_body : string;
  get_id : Z
}.

(** Modelled from the spec: the module [w3af.core.data.constants.severity]
    is not among the sources; the plugin only names [MEDIUM] and [LOW] of
    the scanner's severity taxonomy. *)
Module severity.
Inductive t : Type := INFORMATION | LOW | MEDIUM | HIGH.
End severity.

(** Modelled from the spec: the class [Vuln] of [w3af.core.data.kb.vuln] is
    not among the sources; the record keeps the five constructor arguments
    the plugin passes and the URI it sets afterwards. *)
Record Vuln : Type := mkVuln {
  vuln_name : string;
  vuln_desc : string;
  vuln_severity : severity.t;
  vuln_response_id : Z;
  vuln_plugin_name : string;
  vuln_uri : string
}.

(** ** Classes [RetireJSVulnerability] and [VulnerabilityMessage] *)

Record RetireJSVulnerability : Type := mkRetireJSVulnerability {
  vuln_sev : json;      (* self.severity *)
  summary : json;
  info_urls : json
}.

Record VulnerabilityMessage : Type := mkVulnerabilityMessage {
  response : Response;
  component : json;
  version : json;
  vulnerabilities : list RetireJSVulnerability
}.

Definition add_vulnerability (self : VulnerabilityMessage)
    (vulnerability : RetireJSVulnerability) : VulnerabilityMessage :=
  {| response := response self;
     component := component self;
     version := version self;
     vulnerabilities := vulnerabilities self ++ [vulnerability] |}.

(** The loop of [get_severity]: the first entry whose lowered severity is
    ['high'] ends it; an entry whose severity has no [lower] raises. *)
Fixpoint get_severity_loop (vs : list RetireJSVulnerability) : result severity.t :=
  match vs with
  | [] => Ok severity.LOW
  | vulnerability :: rest =>
      match py_lower (vuln_sev vulnerability) with
      | Raise e => Raise e
      | Ok s => if String.eqb s "high" then Ok severity.MEDIUM
                else get_severity_loop rest
      end
  end.

Definition get_severity (self : VulnerabilityMessage) : result severity.t :=
  get_severity_loop (vulnerabilities self).

(** ** The world the plugin acts on *)

(** What the plugin does to its environment, oldest event first. *)
Inductive event : Type :=
  | EvMkTemp (path : string)                 (* tempfile.NamedTemporaryFile *)
  | EvWrite (path data : string)             (* file.write *)
  | EvCheckOutput (cmd : string)             (* subprocess.check_output *)
  | EvPopen (cmd : string)                   (* subprocess.Popen *)
  | EvTimerStart (timeout : Z)               (* Timer(...).start() *)
  | EvWait                                   (* process.wait() *)
  | EvTimerCancel                            (* t.cancel() *)
  | EvOpen (path : string)                   (* file(path).read() *)
  | EvRemove (path : string)                 (* os.remove *)
  | OmDebug (msg : string) (arg : option exn) (* om.out.debug(msg % arg) *)
  | OmError (msg : string).                  (* om.out.error *)

(** The attributes of the plugin object together with the files, the
    knowledge base and the event log.

    Modelled from the spec: the class [DiskSet] behind [_analyzed_hashes] is
    not among the sources; the specification describes it as a persistent
    set of fingerprints with membership test and insertion, which is what a
    finite set of strings gives. *)
Record state : Type := mkState {
  _analyzed_hashes : gset string;
  _retirejs_exit_code_result : option bool;
  _retirejs_exit_code_was_run : bool;
  files : gmap string string;
  kb : list Vuln;
  trace : list event
}.

Definition set_hashes (h : gset string) (st : state) : state :=
  mkState h (_retirejs_exit_code_result st) (_retirejs_exit_code_was_run st)
          (files st) (kb st) (trace st).

Definition set_exit_code (was_run : bool) (res : option bool) (st : state) : state :=
  mkState (_analyzed_hashes st) res was_run (files st) (kb st) (trace st).

Definition set_files (f : gmap string string) (st : state) : state :=
  mkState (_analyzed_hashes st) (_retirejs_exit_code_result st)
          (_retirejs_exit_code_was_run st) f (kb st) (trace st).

Definition set_kb (k : list Vuln) (st : state) : state :=
  mkState (_analyzed_hashes st) (_retirejs_exit_code_result st)
          (_retirejs_exit_code_was_run st) (files st) k (trace st).

Definition emit (ev : event) (st : state) : state :=
  mkState (_analyzed_hashes st) (_retirejs_exit_code_result st)
          (_retirejs_exit_code_was_run st) (files st) (kb st) (trace st ++ [ev]).

(** [st] with the files replaced by [fs] and the events [evs] logged. *)
Definition after (st : state) (fs : gmap string string) (evs : list event) : state :=
  mkState (_analyzed_hashes st) (_retirejs_exit_code_result st)
          (_retirejs_exit_code_was_run st) fs (kb st) (trace st ++ evs).

(** ** State-and-exception monad *)

Definition M (A : Type) : Type := state -> result A * state.

Definition ret {A} (a : A) : M A := fun st => (Ok a, st).

Definition bind {A B} (c : M A) (k : A -> M B) : M B :=
  fun st =>
    match c st with
    | (Ok a, st') => k a st'
    | (Raise e, st') => (Raise e, st')
    end.

Definition raise {A} (e : exn) : M A := fun st => (Raise e, st).

Definition lift {A} (r : result A) : M A := fun st => (r, st).

Definition get_state : M state := fun st => (Ok st, st).

Definition modify (f : state -> state) : M unit := fun st => (Ok tt, f st).

(** [try: c  except <handled>: h e]; an exception that [handled] rejects
    goes on. *)
Definition try_except {A} (c : M A) (handled : exn -> bool) (h : exn -> M A) : M A :=
  fun st =>
    match c st with
    | (Raise e, st') => if handled e then h e st' else (Raise e, st')
    | ok => ok
    end.

(** [try: c  finally: f]. *)
Definition try_finally {A} (c : M A) (f : M unit) : M A :=
  fun st =>
    match c st with
    | (r, st') =>
        match f st' with
        | (Ok _, st'') => (r, st'')
        | (Raise e, st'') => (Raise e, st'')
        end
    end.

Notation "x <- c ;; k" := (bind c (fun x => k))
  (at level 100, c at next level, right associativity).
Notation "c ;;; k" := (bind c (fun _ => k))
  (at level 100, right associativity).

Fixpoint for_each {A} (items : list A) (body : A -> M unit) : M unit :=
  match items with
  | [] => ret tt
  | x :: rest => body x ;;; for_each rest body
  end.

Definition any_exception (e : exn) : bool := true.

Definition om_out_debug (msg : string) (arg : option exn) : M unit :=
  modify (emit (OmDebug msg arg)).

Definition om_out_error (msg : string) : M unit :=
  modify (emit (OmError msg)).

(** ** The plugin *)

Definition quote : string := String (ascii_of_nat 34) EmptyString.
Definition nl : string := String (ascii_of_nat 10) EmptyString.

Definition METHODS : list string := ["GET"].
Definition HTTP_CODES : list Z := [200].
Definition RETIRE_TIMEOUT : Z := 5.

(** [RETIRE_CMD % (output, input)]. *)
Definition RETIRE_CMD (outputpath jspath : string) : string :=
  "retire -j --outputformat json --outputpath " +:+ outputpath
    +:+ " --jspath " +:+ jspath.

(** The texts of the three diagnostics. *)
Definition MSG_MISSING_ATTRIBUTE : string :=
  "The retirejs generated JSON document is invalid. Either the version"
    +:+ " or the component attribute is missing. Will ignore this result"
    +:+ " and continue with the next.".

Definition MSG_NO_VULNERABILITIES : string :=
  "The retirejs generated JSON document is invalid. No vulnerabilities"
    +:+ " were found. Will ignore this result and continue with the next.".

Definition MSG_PARSE_FAILED : string :=
  "Failed to parse retirejs output. Exception: " +:+ quote +:+ "%s" +:+ quote.

Definition str_in (x : string) (l : list string) : bool :=
  existsb (String.eqb x) l.

Definition Z_in (x : Z) (l : list Z) : bool :=
  existsb (Z.eqb x) l.

Section Plugin.

(** [hashlib.md5(s).hexdigest()]. *)
Variable md5 : string -> string.
(** [json.loads]; [None] when it raises [ValueError]. *)
Variable json_loads : string -> option json.
(** Running a shell command to its end (by itself or by the watchdog's
    [terminate]): the files it leaves and [process.returncode]. *)
Variable retire : string -> gmap string string -> gmap string string * Z.
(** The name [tempfile] picks for a prefix and a suffix. *)
Variable mktemp : string -> string -> gmap string string -> string.
(** [str(v)] of a value that is not a string. *)
Variable py_str : json -> string.

(** ['%s' % v]. *)
Definition fmt_s (v : json) : string :=
  match v with
  | JStr s => s
  | _ => py_str v
  end.

(** *** Files and processes *)

(** [tempfile.NamedTemporaryFile(prefix, suffix, delete=False)]: the file
    exists and is empty. *)
Definition NamedTemporaryFile (prefix suffix : string) : M string :=
  st <- get_state ;;
  let name := mktemp prefix suffix (files st) in
  modify (fun st => emit (EvMkTemp name) (set_files (<[name := ""]> (files st)) st)) ;;;
  ret name.

Definition file_write (name data : string) : M unit :=
  modify (fun st => emit (EvWrite name data) (set_files (<[name := data]> (files st)) st)).

(** [file(name).read()]. *)
Definition file_read (name : string) : M string :=
  modify (emit (EvOpen name)) ;;;
  st <- get_state ;;
  match files st !! name with
  | Some data => ret data
  | None => raise IOError
  end.

Definition os_remove (name : string) : M unit :=
  modify (emit (EvRemove name)) ;;;
  st <- get_state ;;
  match files st !! name with
  | Some _ => modify (set_files (delete name (files st)))
  | None => raise OSError
  end.

(** [subprocess.check_output(cmd, shell=True)]. *)
Definition check_output (cmd : string) : M unit :=
  modify (emit (EvCheckOutput cmd)) ;;;
  st <- get_state ;;
  let '(files', returncode) := retire cmd (files st) in
  modify (set_files files') ;;;
  if returncode =? 0 then ret tt else raise CalledProcessError.

(** Lines 195-205: [Popen], the watchdog timer, [wait], [cancel]; the
    value is [process.returncode]. *)
Definition run_with_watchdog (cmd : string) : M Z :=
  modify (emit (EvPopen cmd)) ;;;
  modify (emit (EvTimerStart RETIRE_TIMEOUT)) ;;;
  st <- get_state ;;
  let '(files', returncode) := retire cmd (files st) in
  modify (fun st => emit EvWait (set_files files' st)) ;;;
  modify (emit EvTimerCancel) ;;;
  ret returncode.

Definition py_json_loads (data : string) : M json :=
  match json_loads data with
  | Some doc => ret doc
  | None => raise ValueError
  end.

(** *** Methods of class [retirejs] *)

Definition _remove_file (response_file : string) : M unit :=
  try_except (os_remove response_file) any_exception (fun _ => ret tt).

Definition _retirejs_exit_code : M (option bool) :=
  st <- get_state ;;
  if _retirejs_exit_code_was_run st then ret (_retirejs_exit_code_result st)
  else
    check_file <- NamedTemporaryFile "retirejs-check-" ".w3af" ;;
    file_write check_file "" ;;;
    output_file <- NamedTemporaryFile "retirejs-output-" ".w3af" ;;
    let cmd := RETIRE_CMD output_file check_file in
    try_finally
      (r <- try_except (check_output cmd ;;; ret true)
              (fun e => match e with CalledProcessError => true | _ => false end)
              (fun _ =>
                 om_out_error
                   "Unexpected retire.js exit code. Disabling grep.retirejs plugin." ;;;
                 modify (set_exit_code true (Some false)) ;;;
                 ret false) ;;
       if r : bool then
         om_out_debug "retire.js returned the expected exit code." None ;;;
         modify (set_exit_code true (Some true))
       else ret tt)
      (_remove_file output_file ;;;
       _remove_file check_file) ;;;
    st <- get_state ;;
    ret (_retirejs_exit_code_result st).

Definition _should_analyze (response : Response) : M bool :=
  let url_hash := md5 (get_url response) in
  st <- get_state ;;
  if decide (url_hash ∈ _analyzed_hashes st) then ret false
  else
    modify (fun st => set_hashes ({[url_hash]} ∪ _analyzed_hashes st) st) ;;;
    let response_hash := md5 (get_body response) in
    st <- get_state ;;
    if decide (response_hash ∈ _analyzed_hashes st) then ret false
    else
      modify (fun st => set_hashes ({[response_hash]} ∪ _analyzed_hashes st) st) ;;;
      ret true.

Definition _save_response_to_file (response : Response) : M string :=
  response_file <- NamedTemporaryFile "retirejs-response-" ".w3af.js" ;;
  file_write response_file (get_body response) ;;;
  ret response_file.

Definition _analyze_file (response_file : string) : M json :=
  json_file <- NamedTemporaryFile "retirejs-output-" ".w3af" ;;
  let cmd := RETIRE_CMD json_file response_file in
  returncode <- run_with_watchdog cmd ;;
  json_doc <-
    (if negb (returncode =? 0) then
       try_except
         (data <- file_read json_file ;; py_json_loads data)
         any_exception
         (fun e =>
            om_out_debug MSG_PARSE_FAILED (Some e) ;;;
            ret (JArr []))
     else ret (JArr [])) ;;
  _remove_file json_file ;;;
  ret json_doc.

Definition rbind {A B} (r : result A) (k : A -> result B) : result B :=
  match r with
  | Ok a => k a
  | Raise e => Raise e
  end.

(** The body of the loop of lines 282-288, up to the new object. *)
Definition retire_vuln_of (vulnerability : json) : result RetireJSVulnerability :=
  rbind (py_get vulnerability "severity" (JStr "unknown")) (fun vuln_severity =>
  rbind (py_get vulnerability "identifiers" (JObj [])) (fun identifiers =>
  rbind (py_get identifiers "summary" (JStr "unknown")) (fun summary =>
  rbind (py_get vulnerability "info" (JArr [])) (fun info_urls =>
  Ok (mkRetireJSVulnerability vuln_severity summary info_urls))))).

Fixpoint add_vulnerabilities (message : VulnerabilityMessage) (items : list json)
    : result VulnerabilityMessage :=
  match items with
  | [] => Ok message
  | vulnerability :: rest =>
      rbind (retire_vuln_of vulnerability) (fun retire_vuln =>
      add_vulnerabilities (add_vulnerability message retire_vuln) rest)
  end.

(** [sep.join(parts)]. *)
Fixpoint join (sep : string) (parts : list string) : string :=
  match parts with
  | [] => ""
  | [p] => p
  | p :: rest => p +:+ sep +:+ join sep rest
  end.

Definition summaries_of (vs : list RetireJSVulnerability) : string :=
  join nl (List.map (fun vuln => " - " +:+ fmt_s (summary vuln)) vs).

Definition to_string (self : VulnerabilityMessage) : string :=
  "A JavaScript library with known vulnerabilities was identified at "
    +:+ get_url (response self)
    +:+ ". The library was identified as " +:+ quote
    +:+ fmt_s (component self) +:+ quote
    +:+ " version " +:+ fmt_s (version self)
    +:+ " and has these known vulnerabilities:" +:+ nl +:+ nl
    +:+ summaries_of (vulnerabilities self) +:+ nl +:+ nl
    +:+ "Consider updating to the latest stable release of the affected library.".

(** Modelled from the spec: [kb_append_uniq] is inherited from a class
    that is not among the sources.  The result store keeps at most one
    record per URL: a record whose URL is already stored is dropped. *)
Definition append_uniq (v : Vuln) (st : state) : state :=
  if existsb (fun w => String.eqb (vuln_uri w) (vuln_uri v)) (kb st) then st
  else set_kb (kb st ++ [v]) st.

Definition kb_append_uniq (v : Vuln) : M unit := modify (append_uniq v).

Definition _handle_result (response : Response) (json_result : json) : M unit :=
  version <- lift (py_get json_result "version" JNull) ;;
  component <- lift (py_get json_result "component" JNull) ;;
  vulnerabilities <- lift (py_get json_result "vulnerabilities" (JArr [])) ;;
  if is_None version || is_None component then
    om_out_debug MSG_MISSING_ATTRIBUTE None
  else if negb (py_truthy vulnerabilities) then
    om_out_debug MSG_NO_VULNERABILITIES None
  else
    items <- lift (py_iter vulnerabilities) ;;
    message <- lift (add_vulnerabilities
                       (mkVulnerabilityMessage response component version []) items) ;;
    let desc := to_string message in
    real_severity <- lift (get_severity message) ;;
    kb_append_uniq
      (mkVuln "Vulnerable JavaScript library in use" desc real_severity
              (get_id response) "retirejs" (get_uri response)).

Definition _handle_finding (response : Response) (json_finding : json) : M unit :=
  results <- lift (py_get json_finding "results" (JArr [])) ;;
  items <- lift (py_iter results) ;;
  for_each items (_handle_result response).

Definition _json_to_kb (response : Response) (json_doc : json) : M unit :=
  items <- lift (py_iter json_doc) ;;
  for_each items (_handle_finding response).

Definition _analyze_response (response : Response) : M unit :=
  response_file <- _save_response_to_file response ;;
  json_doc <- _analyze_file response_file ;;
  _remove_file response_file ;;;
  _json_to_kb response json_doc.

Definition opt_truthy (v : option bool) : bool :=
  match v with Some b => b | None => false end.

Definition grep (request : Request) (response : Response) : M unit :=
  ok <- _retirejs_exit_code ;;
  if negb (opt_truthy ok) then ret tt
  else if negb (str_in (get_method request) METHODS) then ret tt
  else if negb (Z_in (get_code response) HTTP_CODES) then ret tt
  else if negb (is_text_or_html response) then ret tt
  else
    go <- _should_analyze response ;;
    if negb go then ret tt
    else _analyze_response response.

(** [__init__]: nothing analysed, the check not run. *)
Definition init (fs : gmap string string) (k : list Vuln) : state :=
  mkState ∅ None false fs k [].

(** A scan session: [grep] on each pair in turn; the scanner goes on with
    the next response whatever the outcome of a call. *)
Fixpoint session (calls : list (Request * Response)) (st : state) : state :=
  match calls with
  | [] => st
  | (request, response) :: rest => session rest (snd (grep request response st))
  end.

End Plugin.

(** ** Observations on a run *)

(** The commands of the analysis runs ([_analyze_file]), in order. *)
Fixpoint analyses (t : list event) : list string :=
  match t with
  | [] => []
  | EvPopen cmd :: rest => cmd :: analyses rest
  | _ :: rest => analyses rest
  end.

(** The commands handed to the external analyzer, self-check included. *)
Fixpoint invocations (t : list event) : list string :=
  match t with
  | [] => []
  | EvCheckOutput cmd :: rest => cmd :: invocations rest
  | EvPopen cmd :: rest => cmd :: invocations rest
  | _ :: rest => invocations rest
  end.

(** The paths opened for reading, in order. *)
Fixpoint opened (t : list event) : list string :=
  match t with
  | [] => []
  | EvOpen path :: rest => path :: opened rest
  | _ :: rest => opened rest
  end.

(** The temporary files created, in order. *)
Fixpoint created (t : list event) : list string :=
  match t with
  | [] => []
  | EvMkTemp path :: rest => path :: created rest
  | _ :: rest => created rest
  end.

(** The responses of a session that were analysed: those whose [grep] call
    lengthened the list of analysis runs. *)
Fixpoint analysed (md5 : string -> string) (json_loads : string -> option json)
    (retire : string -> gmap string string -> gmap string string * Z)
    (mktemp : string -> string -> gmap string string -> string)
    (py_str : json -> string)
    (calls : list (Request * Response)) (st : state) : list Response :=
  match calls with
  | [] => []
  | (request, response) :: rest =>
      let st' := snd (grep md5 json_loads retire mktemp py_str request response st) in
      (if Nat.eqb (List.length (analyses (trace st')))
                  (List.length (analyses (trace st)))
       then [] else [response])
        ++ analysed md5 json_loads retire mktemp py_str rest st'
  end.

(** [keeps R c]: whatever state [c] starts from and however it ends, the
    final state is [R]-related to the initial one. *)
Definition keeps (R : state -> state -> Prop) {A} (c : M A) : Prop :=
  ∀ st, R st (snd (c st)).

Definition same_hashes (st st' : state) : Prop :=
  _analyzed_hashes st' = _analyzed_hashes st.

Definition hashes_grow (st st' : state) : Prop :=
  _analyzed_hashes st ⊆ _analyzed_hashes st'.

Definition same_files (st st' : state) : Prop :=
  files st' = files st.

Definition same_trace (st st' : state) : Prop :=
  trace st' = trace st.

Definition same_analyses (st st' : state) : Prop :=
  analyses (trace st') = analyses (trace st).

Definition same_check (st st' : state) : Prop :=
  _retirejs_exit_code_was_run st' = _retirejs_exit_code_was_run st
  ∧ _retirejs_exit_code_result st' = _retirejs_exit_code_result st.

Definition is_log (ev : event) : Prop :=
  match ev with
  | OmDebug _ _ | OmError _ => True
  | _ => False
  end.

(** [quiet st st']: from [st] to [st'] only the knowledge base may have
    changed and only diagnostics were logged. *)
Definition quiet (st st' : state) : Prop :=
  same_hashes st st' ∧ same_files st st' ∧ same_check st st'
  ∧ ∃ evs, trace st' = trace st ++ evs ∧ Forall is_log evs.



(** The self-check commands ([subprocess.check_output]), in order. *)
Fixpoint checks (t : list event) : list string :=
  match t with
  | [] => []
  | EvCheckOutput cmd :: rest => cmd :: checks rest
  | _ :: rest => checks rest
  end.

Definition same_checks (st st' : state) : Prop :=
  checks (trace st') = checks (trace st).

Definition same_kb (st st' : state) : Prop :=
  kb st' = kb st.

(** The three tests [grep] makes on the request and the response alone. *)
Definition gate (request : Request) (response : Response) : bool :=
  str_in (get_method request) METHODS
  && Z_in (get_code response) HTTP_CODES
  && is_text_or_html response.

(** [settled md5 request response st]: the self-check has been run and
    [grep] has nothing left to do for this pair, because the plugin is
    disabled, or a test on the pair fails, or the URL has been seen. *)
Definition settled (md5 : string -> string) (request : Request) (response : Response)
    (st : state) : Prop :=
  _retirejs_exit_code_was_run st = true
  ∧ (opt_truthy (_retirejs_exit_code_result st) = false
     ∨ gate request response = false
     ∨ md5 (get_url response) ∈ _analyzed_hashes st).

(** [raises_only allowed c]: an exception that leaves [c] satisfies
    [allowed]. *)
Definition raises_only (allowed : exn -> Prop) {A} (c : M A) : Prop :=
  ∀ st e, fst (c st) = Raise e → allowed e.

(** The two exceptions a document of unexpected shape provokes. *)
Definition shape_error (e : exn) : Prop :=
  e = AttributeError ∨ e = TypeError.

(** A record as [_handle_result] builds it for [response]. *)
Definition made_for (response : Response) (v : Vuln) : Prop :=
  vuln_name v = "Vulnerable JavaScript library in use"
  ∧ vuln_plugin_name v = "retirejs"
  ∧ vuln_response_id v = get_id response
  ∧ vuln_uri v = get_uri response
  ∧ (vuln_severity v = severity.MEDIUM ∨ vuln_severity v = severity.LOW).

(** [kb_adds response st st']: the records of [st'] are those of [st] and
    records made for [response]. *)
Definition kb_adds (response : Response) (st st' : state) : Prop :=
  ∀ v, v ∈ kb st' → v ∈ kb st ∨ made_for response v.

(** [cache_within extra st st']: the cache grew by members of [extra] at
    most. *)
Definition cache_within (extra : gset string) (st st' : state) : Prop :=
  _analyzed_hashes st' ⊆ extra ∪ _analyzed_hashes st.

(** ** Comparison ignoring case, as the specification words it *)

(** Two bytes are the same letter when they are equal or when one is an
    upper-case letter [A]-[Z] and the other is 32 above it. *)
Definition same_letter (a b : ascii) : bool :=
  let m := N_of_ascii a in
  let n := N_of_ascii b in
  ((m =? n) || ((65 <=? m) && (m <=? 90) && (m + 32 =? n))
            || ((65 <=? n) && (n <=? 90) && (n + 32 =? m)))%N.

Fixpoint eq_ignoring_case (s t : string) : bool :=
  match s, t with
  | EmptyString, EmptyString => true
  | String a s', String b t' => same_letter a b && eq_ignoring_case s' t'
  | _, _ => false
  end.

(** A word made of the letters [a]-[z] only. *)
Fixpoint lowercase (t : string) : bool :=
  match t with
  | EmptyString => true
  | String b t' =>
      ((97 <=? N_of_ascii b) && (N_of_ascii b <=? 122))%N && lowercase t'
  end.

(** Whether some constituent vulnerability is reported at "high". *)
Definition reported_high (v : RetireJSVulnerability) : bool :=
  match vuln_sev v with
  | JStr s => eq_ignoring_case s "high"
  | _ => false
  end.

Definition severity_is_string (v : RetireJSVulnerability) : Prop :=
  ∃ s, vuln_sev v = JStr s.

(** A string severity other than "high". *)
Definition reported_below_high (v : RetireJSVulnerability) : Prop :=
  severity_is_string v ∧ reported_high v = false.

(** A vulnerability entry of the documented shape: an object whose
    severity, if it has one, is a string and whose identifiers, if it has
    any, are an object. *)
Definition well_formed_entry (j : json) : Prop :=
  ∃ fields,
    j = JObj fields
    ∧ (∃ s, default (JStr "unknown") (dict_lookup fields "severity") = JStr s)
    ∧ (∃ ids, default (JObj []) (dict_lookup fields "identifiers") = JObj ids).

(** [needle] occurs in [text]. *)
Definition occurs_in (needle text : string) : Prop :=
  ∃ before after, text = before +:+ needle +:+ after.

(** ** Stand-ins for the collaborators, to run the embedding *)

Definition demo_md5 (s : string) : string := "md5:" +:+ s.

Definition demo_mktemp (prefix suffix : string) (fs : gmap string string) : string :=
  "/tmp/" +:+ prefix +:+ "x" +:+ suffix.

Definition demo_py_str (v : json) : string := "<object>".

Definition demo_doc : json :=
  JArr [JObj [("file", JStr "/tmp/retirejs-response-x.w3af.js");
              ("results",
               JArr [JObj [("component", JStr "jquery");
                           ("version", JStr "1.8.1");
                           ("vulnerabilities",
                            JArr [JObj [("severity", JStr "High");
                                        ("identifiers", JObj [("summary", JStr "XSS in load()")]);
                                        ("info", JArr [JStr "https://example.org/1"])];
                                  JObj [("info", JArr [])]])];
                     JObj [("component", JStr "angular");
                           ("vulnerabilities", JArr [JObj []])];
                     JObj [("component", JStr "lodash");
                           ("version", JStr "3.0");
                           ("vulnerabilities", JArr [])]])]].

Definition demo_json_loads (data : string) : option json :=
  if String.eqb data "FINDINGS" then Some demo_doc
  else if String.eqb data "[]" then Some (JArr [])
  else None.

(** An analyzer that passes the self-check with status 0 and, on any other
    command, leaves [output] in the output file (when there is one to leave)
    and ends with [returncode]. *)
Definition demo_retire (output : option string) (returncode : Z)
    (cmd : string) (fs : gmap string string) : gmap string string * Z :=
  if String.eqb cmd (RETIRE_CMD "/tmp/retirejs-output-x.w3af" "/tmp/retirejs-check-x.w3af")
  then (fs, 0)
  else (match output with
        | Some data => <["/tmp/retirejs-output-x.w3af" := data]> fs
        | None => fs
        end, returncode).

Definition demo_response : Response :=
  mkResponse 200 true "http://w3af.org/js/jquery.js" "http://w3af.org/js/jquery.js?v=1"
             "/*! jQuery v1.8.1 */" 7.

Definition demo_request : Request := mkRequest "GET".

Definition demo_grep (output : option string) (returncode : Z) :=
  grep demo_md5 demo_json_loads (demo_retire output returncode) demo_mktemp demo_py_str.

(** A state in which the URL of [demo_response] has been seen and the
    self-check has passed. *)
Definition seen_state : state :=
  mkState {[demo_md5 (get_url demo_response)]} (Some true) true ∅ [] [].

(** A message with one vulnerability reported at "HiGh". *)
Definition demo_message : VulnerabilityMessage :=
  mkVulnerabilityMessage demo_response (JStr "jquery") (JStr "1.8.1")
    [mkRetireJSVulnerability (JStr "low") (JStr "a") (JArr []);
     mkRetireJSVulnerability (JStr "HiGh") (JStr "b") (JArr [])].

(** A result entry without vulnerabilities, and a vulnerability entry with
    neither severity nor identifiers. *)
Definition empty_result : list (string * json) :=
  [("component", JStr "lodash"); ("version", JStr "3.0"); ("vulnerabilities", JArr [])].

Definition bare_entry : list (string * json) := [("info", JArr [])].

(** Further stand-ins: a parser that returns an object where a list of
    findings is expected, an analyzer that fails every command, a state in
    which the self-check has passed and nothing has been seen, and some
    requests, documents and entries. *)
Definition odd_json_loads (data : string) : option json :=
  if String.eqb data "ODD" then Some (JObj [("error", JStr "out of memory")]) else None.

Definition broken_retire (cmd : string) (fs : gmap string string)
    : gmap string string * Z := (fs, 127).

Definition checked_state : state := mkState ∅ (Some true) true ∅ [] [].

Definition post_request : Request := mkRequest "POST".

Definition demo_calls : list (Request * Response) :=
  [(post_request, demo_response); (demo_request, demo_response)].

Definition demo_record : Vuln :=
  mkVuln "Vulnerable JavaScript library in use"
    (to_string demo_py_str
       (mkVulnerabilityMessage demo_response (JStr "jquery") (JStr "1.8.1")
          [mkRetireJSVulnerability (JStr "High") (JStr "XSS in load()")
             (JArr [JStr "https://example.org/1"]);
           mkRetireJSVulnerability (JStr "unknown") (JStr "unknown") (JArr [])]))
    severity.MEDIUM 7 "retirejs" "http://w3af.org/js/jquery.js?v=1".

Definition null_severity : RetireJSVulnerability :=
  mkRetireJSVulnerability JNull (JStr "a") (JArr []).

Definition high_severity : RetireJSVulnerability :=
  mkRetireJSVulnerability (JStr "HIGH") (JStr "b") (JArr []).

Definition low_severity : RetireJSVulnerability :=
  mkRetireJSVulnerability (JStr "low") (JStr "c") (JArr []).

Definition jquery_entries : list json :=
  [JObj [("severity", JStr "medium");
         ("identifiers", JObj [("summary", JStr "Selector XSS")])];
   JObj []].

Definition jquery_result : list (string * json) :=
  [("component", JStr "jquery"); ("version", JStr "1.8.1");
   ("vulnerabilities", JArr jquery_entries)].

Definition numbered_result : list (string * json) :=
  [("component", JStr "jquery"); ("version", JStr "1.8.1");
   ("vulnerabilities", JNum 3)].

Definition two_results : list (string * json) :=
  [("results", JArr [JObj empty_result; JStr "oops"; JObj jquery_result])].

(** * Properties *)

(** ** Frame rules for the monad *)

Section Frames.

Variable R : state -> state -> Prop.
Hypothesis R_refl : ∀ st, R st st.
Hypothesis R_trans : ∀ a b c, R a b → R b c → R a c.

Lemma keeps_ret {A} (a : A) : keeps R (ret a).
Proof. intros st. apply R_refl. Qed.

Lemma keeps_raise {A} (e : exn) : keeps R (@raise A e).
Proof. intros st. apply R_refl. Qed.

Lemma keeps_lift {A} (r : result A) : keeps R (lift r).
Proof. intros st. apply R_refl. Qed.

Lemma keeps_get_state : keeps R get_state.
Proof. intros st. apply R_refl. Qed.

Lemma keeps_modify (f : state -> state) :
  (∀ st, R st (f st)) → keeps R (modify f).
Proof. intros Hf st. apply Hf. Qed.

Lemma keeps_bind {A B} (c : M A) (k : A -> M B) :
  keeps R c → (∀ a, keeps R (k a)) → keeps R (bind c k).
Proof.
  intros Hc Hk st. unfold bind.
  specialize (Hc st). destruct (c st) as [[a|e] st1]; simpl in *.
  - eapply R_trans; [exact Hc | apply Hk].
  - exact Hc.
Qed.

Lemma keeps_try_except {A} (c : M A) handled (h : exn -> M A) :
  keeps R c → (∀ e, keeps R (h e)) → keeps R (try_except c handled h).
Proof.
  intros Hc Hh st. unfold try_except.
  specialize (Hc st). destruct (c st) as [[a|e] st1]; simpl in *.
  - exact Hc.
  - destruct (handled e); simpl; [|exact Hc].
    eapply R_trans; [exact Hc | apply Hh].
Qed.

Lemma keeps_try_finally {A} (c : M A) (f : M unit) :
  keeps R c → keeps R f → keeps R (try_finally c f).
Proof.
  intros Hc Hf st. unfold try_finally.
  specialize (Hc st). destruct (c st) as [r st1]; simpl in *.
  specialize (Hf st1). destruct (f st1) as [[u|e] st2]; simpl in *;
    eapply R_trans; eauto.
Qed.

Lemma keeps_for_each {A} (items : list A) (body : A -> M unit) :
  (∀ x, keeps R (body x)) → keeps R (for_each items body).
Proof.
  intros Hb. induction items as [|x rest IH]; simpl.
  - apply keeps_ret.
  - apply keeps_bind; [apply Hb | intros _; exact IH].
Qed.

End Frames.

Lemma analyses_app (t u : list event) : analyses (t ++ u) = analyses t ++ analyses u.
Proof.
  induction t as [|ev t IH]; simpl; [reflexivity|].
  destruct ev; simpl; rewrite ?IH; reflexivity.
Qed.

Lemma invocations_app (t u : list event) :
  invocations (t ++ u) = invocations t ++ invocations u.
Proof.
  induction t as [|ev t IH]; simpl; [reflexivity|].
  destruct ev; simpl; rewrite ?IH; reflexivity.
Qed.

Lemma opened_app (t u : list event) : opened (t ++ u) = opened t ++ opened u.
Proof.
  induction t as [|ev t IH]; simpl; [reflexivity|].
  destruct ev; simpl; rewrite ?IH; reflexivity.
Qed.

(** Breaks a goal [keeps R c] down along the structure of [c]; what is
    left are the [modify] steps. *)
Ltac frame_steps :=
  repeat (intros; cbv zeta;
    lazymatch goal with
    | |- keeps _ (ret _) => apply keeps_ret; assumption
    | |- keeps _ (raise _) => apply keeps_raise; assumption
    | |- keeps _ (lift _) => apply keeps_lift; assumption
    | |- keeps _ get_state => apply keeps_get_state; assumption
    | |- keeps _ (bind _ _) => apply keeps_bind; [assumption | | ]
    | |- keeps _ (try_except _ _ _) => apply keeps_try_except; [assumption | | ]
    | |- keeps _ (try_finally _ _) => apply keeps_try_finally; [assumption | | ]
    | |- keeps _ (for_each _ _) => apply keeps_for_each; [assumption | assumption | ]
    | |- keeps _ (om_out_debug _ _) => unfold om_out_debug
    | |- keeps _ (om_out_error _) => unfold om_out_error
    | |- keeps _ (if ?b then _ else _) => destruct b
    | |- keeps _ (match ?x with _ => _ end) => destruct x
    | |- keeps _ (modify _) => apply keeps_modify; intros
    end).

(** Closes the goals the [modify] steps leave. *)
Ltac frame_modify :=
  intros;
  lazymatch goal with
  | |- same_hashes _ _ => exact eq_refl
  | |- same_files _ _ => exact eq_refl
  | |- same_trace _ _ => exact eq_refl
  | |- same_check _ _ => split; exact eq_refl
  | |- same_analyses _ _ =>
      unfold same_analyses, emit; simpl;
      rewrite ?analyses_app; simpl; rewrite ?app_nil_r; reflexivity
  | |- hashes_grow _ _ => unfold hashes_grow; simpl; set_solver
  end.

Lemma state_ext (a b : state) :
  _analyzed_hashes a = _analyzed_hashes b →
  _retirejs_exit_code_result a = _retirejs_exit_code_result b →
  _retirejs_exit_code_was_run a = _retirejs_exit_code_was_run b →
  files a = files b → kb a = kb b → trace a = trace b →
  a = b.
Proof. destruct a, b; simpl; intros; subst; reflexivity. Qed.

(** Two states written with the setters are equal field by field. *)
Ltac state_eq :=
  lazymatch goal with
  | |- (_, _) = (_, _) => apply (f_equal2 pair); [reflexivity|]
  | _ => idtac
  end;
  apply state_ext;
  cbn [_analyzed_hashes _retirejs_exit_code_result _retirejs_exit_code_was_run
       files kb trace after set_files emit set_hashes set_exit_code set_kb];
  rewrite <- ?app_assoc; reflexivity.

Ltac frame R_refl R_trans :=
  pose proof R_refl; pose proof R_trans; frame_steps; intros.

Lemma same_hashes_refl st : same_hashes st st.
Proof. reflexivity. Qed.

Lemma same_hashes_trans a b c : same_hashes a b → same_hashes b c → same_hashes a c.
Proof. unfold same_hashes. congruence. Qed.

Lemma hashes_grow_refl st : hashes_grow st st.
Proof. unfold hashes_grow. set_solver. Qed.

Lemma hashes_grow_trans a b c : hashes_grow a b → hashes_grow b c → hashes_grow a c.
Proof. unfold hashes_grow. set_solver. Qed.

Lemma same_files_refl st : same_files st st.
Proof. reflexivity. Qed.

Lemma same_files_trans a b c : same_files a b → same_files b c → same_files a c.
Proof. unfold same_files. congruence. Qed.

Lemma same_trace_refl st : same_trace st st.
Proof. reflexivity. Qed.

Lemma same_trace_trans a b c : same_trace a b → same_trace b c → same_trace a c.
Proof. unfold same_trace. congruence. Qed.

Lemma same_analyses_refl st : same_analyses st st.
Proof. reflexivity. Qed.

Lemma same_analyses_trans a b c :
  same_analyses a b → same_analyses b c → same_analyses a c.
Proof. unfold same_analyses. congruence. Qed.

Lemma same_check_refl st : same_check st st.
Proof. split; reflexivity. Qed.

Lemma same_check_trans a b c : same_check a b → same_check b c → same_check a c.
Proof. unfold same_check. intros [? ?] [? ?]. split; congruence. Qed.

Section Properties.

Variable md5 : string -> string.
Variable json_loads : string -> option json.
Variable retire : string -> gmap string string -> gmap string string * Z.
Variable mktemp : string -> string -> gmap string string -> string.
Variable py_str : json -> string.

(** *** What each method leaves alone *)

Lemma remove_file_hashes p : keeps same_hashes (_remove_file p).
Proof.
  unfold _remove_file, os_remove.
  frame same_hashes_refl same_hashes_trans; exact eq_refl.
Qed.

Lemma exit_code_hashes : keeps same_hashes (_retirejs_exit_code retire mktemp).
Proof.
  unfold _retirejs_exit_code, NamedTemporaryFile, file_write, check_output.
  frame same_hashes_refl same_hashes_trans;
    try apply remove_file_hashes; frame_modify.
Qed.

Lemma remove_file_analyses p : keeps same_analyses (_remove_file p).
Proof.
  unfold _remove_file, os_remove.
  frame same_analyses_refl same_analyses_trans; frame_modify.
Qed.

Lemma exit_code_analyses : keeps same_analyses (_retirejs_exit_code retire mktemp).
Proof.
  unfold _retirejs_exit_code, NamedTemporaryFile, file_write, check_output.
  frame same_analyses_refl same_analyses_trans;
    try apply remove_file_analyses; frame_modify.
Qed.

Lemma handle_result_hashes r j : keeps same_hashes (_handle_result py_str r j).
Proof.
  unfold _handle_result, kb_append_uniq.
  frame same_hashes_refl same_hashes_trans.
  all: try frame_modify.
  unfold append_uniq. destruct (existsb _ _); exact eq_refl.
Qed.

Lemma json_to_kb_hashes r doc : keeps same_hashes (_json_to_kb py_str r doc).
Proof.
  unfold _json_to_kb, _handle_finding.
  frame same_hashes_refl same_hashes_trans.
  apply handle_result_hashes.
Qed.

Lemma analyze_response_hashes r :
  keeps same_hashes (_analyze_response json_loads retire mktemp py_str r).
Proof.
  unfold _analyze_response, _save_response_to_file, _analyze_file,
    NamedTemporaryFile, file_write, run_with_watchdog, file_read, py_json_loads.
  frame same_hashes_refl same_hashes_trans;
    try apply remove_file_hashes; try apply json_to_kb_hashes; frame_modify.
Qed.

(** [_should_analyze], case by case. *)
Lemma should_analyze_spec r st :
  _should_analyze md5 r st =
    let url_hash := md5 (get_url r) in
    let response_hash := md5 (get_body r) in
    if decide (url_hash ∈ _analyzed_hashes st) then (Ok false, st)
    else if decide (response_hash ∈ {[url_hash]} ∪ _analyzed_hashes st)
    then (Ok false, set_hashes ({[url_hash]} ∪ _analyzed_hashes st) st)
    else (Ok true,
          set_hashes ({[response_hash]} ∪ ({[url_hash]} ∪ _analyzed_hashes st)) st).
Proof.
  unfold _should_analyze, bind, get_state, modify, ret; simpl.
  destruct (decide (md5 (get_url r) ∈ _analyzed_hashes st)); [reflexivity|].
  destruct (decide (md5 (get_body r) ∈ {[md5 (get_url r)]} ∪ _analyzed_hashes st));
    reflexivity.
Qed.

(** One [grep] call: the cache only grows, and either no analysis was run
    or the response was fresh on both fingerprints and both are now
    recorded. *)
Lemma grep_step req r st :
  let st' := snd (grep md5 json_loads retire mktemp py_str req r st) in
  hashes_grow st st'
  ∧ (analyses (trace st') = analyses (trace st)
     ∨ ((md5 (get_url r) ∉ _analyzed_hashes st)
        ∧ (md5 (get_body r) ∉ _analyzed_hashes st)
        ∧ (md5 (get_url r) ∈ _analyzed_hashes st')
        ∧ (md5 (get_body r) ∈ _analyzed_hashes st'))).
Proof.
  cbv zeta. unfold grep, bind, ret, hashes_grow.
  pose proof (exit_code_hashes st) as Hh. pose proof (exit_code_analyses st) as Ha.
  unfold same_hashes, same_analyses in Hh, Ha.
  destruct (_retirejs_exit_code retire mktemp st) as [[ok|e] st1]; cbn [snd] in *.
  2: { rewrite Hh. split; [done | by left]. }
  destruct (negb (opt_truthy ok)); cbn [snd].
  { rewrite Hh. split; [done | by left]. }
  destruct (negb (str_in (get_method req) METHODS)); cbn [snd].
  { rewrite Hh. split; [done | by left]. }
  destruct (negb (Z_in (get_code r) HTTP_CODES)); cbn [snd].
  { rewrite Hh. split; [done | by left]. }
  destruct (negb (is_text_or_html r)); cbn [snd].
  { rewrite Hh. split; [done | by left]. }
  rewrite should_analyze_spec; cbv zeta. rewrite Hh.
  destruct (decide (md5 (get_url r) ∈ _analyzed_hashes st)) as [Hu|Hu]; cbn [snd negb].
  { rewrite Hh. split; [done | by left]. }
  destruct (decide (md5 (get_body r) ∈ {[md5 (get_url r)]} ∪ _analyzed_hashes st))
    as [Hb|Hb]; cbn [snd negb].
  { split; [set_solver | by left]. }
  match goal with
  | |- context [_analyze_response _ _ _ _ _ ?s] =>
      pose proof (analyze_response_hashes r s) as Hr
  end.
  unfold same_hashes in Hr; simpl in Hr. rewrite Hr.
  split; [set_solver | right; set_solver].
Qed.

(** No response analysed in a session had a fingerprint in the cache the
    session started with. *)
Lemma analysed_fresh calls : ∀ st,
  Forall (λ r, (md5 (get_url r) ∉ _analyzed_hashes st)
               ∧ (md5 (get_body r) ∉ _analyzed_hashes st))
         (analysed md5 json_loads retire mktemp py_str calls st).
Proof.
  induction calls as [|[req r] rest IH]; intros st; simpl; [constructor|].
  destruct (grep_step req r st) as [Hg Hs].
  set (st' := snd (grep md5 json_loads retire mktemp py_str req r st)) in *.
  apply Forall_app. split.
  - destruct Hs as [Hs|(Hu & Hb & _)].
    + rewrite Hs, Nat.eqb_refl. constructor.
    + destruct (Nat.eqb _ _); repeat constructor; assumption.
  - eapply Forall_impl; [apply IH|]. unfold hashes_grow in Hg.
    intros x [? ?]; simpl. split; set_solver.
Qed.

Lemma filter_none {A} (f : A → bool) (P : A → Prop) (l : list A) :
  Forall P l → (∀ x, P x → f x = false) → List.filter f l = [].
Proof.
  intros HP Hf. induction HP as [|x l Hx _ IH]; simpl; [reflexivity|].
  rewrite (Hf x Hx). exact IH.
Qed.

(** Among the responses analysed in a session no two have the same URL, and
    no two have the same body. *)
Lemma analysed_once (key : Response → string) :
  key = get_url ∨ key = get_body →
  ∀ calls st k,
    (List.length (List.filter (λ r, String.eqb (key r) k)
       (analysed md5 json_loads retire mktemp py_str calls st)) ≤ 1)%nat.
Proof.
  intros Hkey calls. induction calls as [|[req r] rest IH]; intros st k; simpl; [lia|].
  destruct (grep_step req r st) as [_ Hs].
  set (st' := snd (grep md5 json_loads retire mktemp py_str req r st)) in *.
  rewrite List.filter_app, List.length_app.
  specialize (IH st' k).
  destruct (Nat.eqb _ _) eqn:Hlen; simpl; [lia|].
  destruct Hs as [Hs|(_ & _ & Hu & Hb)].
  { rewrite Hs, Nat.eqb_refl in Hlen. discriminate. }
  destruct (String.eqb (key r) k) eqn:Hk; simpl; [|lia].
  apply String.eqb_eq in Hk. subst k.
  rewrite (filter_none _ _ _ (analysed_fresh rest st')); [simpl; lia|].
  intros x [Hxu Hxb]. apply String.eqb_neq. intros Heq.
  destruct Hkey as [-> | ->]; rewrite Heq in *; contradiction.
Qed.

(** Once the self-check has been run, [_retirejs_exit_code] answers from
    the stored result and touches nothing. *)
Lemma exit_code_memo st :
  _retirejs_exit_code_was_run st = true →
  _retirejs_exit_code retire mktemp st = (Ok (_retirejs_exit_code_result st), st).
Proof.
  intros Hrun. unfold _retirejs_exit_code, bind, get_state. rewrite Hrun. reflexivity.
Qed.

(** C1 (deduplication short-circuit).  If the MD5 of a response's URL or
    the MD5 of its body is in the cache, [_should_analyze] returns [False]
    and [grep] starts no analysis run (and, once the self-check has been
    done, no analyzer process at all).  Consequently, among the responses a
    session analyses no two have the same body and no two have the same
    URL: at most one analysis per body and per URL, from any starting
    cache. *)
Theorem dedup_short_circuit :
  (∀ r st,
     md5 (get_url r) ∈ _analyzed_hashes st ∨ md5 (get_body r) ∈ _analyzed_hashes st →
     fst (_should_analyze md5 r st) = Ok false
     ∧ ∀ req,
         let st' := snd (grep md5 json_loads retire mktemp py_str req r st) in
         analyses (trace st') = analyses (trace st)
         ∧ (_retirejs_exit_code_was_run st = true →
            invocations (trace st') = invocations (trace st)))
  ∧ (∀ calls st body,
       (List.length (List.filter (λ r, String.eqb (get_body r) body)
          (analysed md5 json_loads retire mktemp py_str calls st)) ≤ 1)%nat)
  ∧ (∀ calls st url,
       (List.length (List.filter (λ r, String.eqb (get_url r) url)
          (analysed md5 json_loads retire mktemp py_str calls st)) ≤ 1)%nat).
Proof.
  split; [|split].
  - intros r st Hseen. split.
    + rewrite should_analyze_spec; cbv zeta.
      destruct (decide (md5 (get_url r) ∈ _analyzed_hashes st)); [reflexivity|].
      destruct (decide (md5 (get_body r) ∈ {[md5 (get_url r)]} ∪ _analyzed_hashes st));
        [reflexivity | set_solver].
    + intros req; cbv zeta. split.
      * destruct (grep_step req r st) as [_ [Hs|(Hu & Hb & _)]]; [exact Hs|].
        destruct Hseen; contradiction.
      * intros Hrun. unfold grep, bind, ret. rewrite (exit_code_memo st Hrun).
        destruct (negb (opt_truthy _)); [reflexivity|].
        destruct (negb (str_in _ _)); [reflexivity|].
        destruct (negb (Z_in _ _)); [reflexivity|].
        destruct (negb (is_text_or_html r)); [reflexivity|].
        rewrite should_analyze_spec; cbv zeta.
        destruct (decide (md5 (get_url r) ∈ _analyzed_hashes st)); [reflexivity|].
        destruct (decide (md5 (get_body r) ∈ {[md5 (get_url r)]} ∪ _analyzed_hashes st));
          [reflexivity | set_solver].
  - intros calls st body. apply (analysed_once get_body); by right.
  - intros calls st url. apply (analysed_once get_url); by left.
Qed.

(** *** Severity *)

Lemma ascii_eqb_N (a b : ascii) : Ascii.eqb a b = (N_of_ascii a =? N_of_ascii b)%N.
Proof.
  destruct (Ascii.eqb_spec a b) as [->|Hne].
  - symmetry. apply N.eqb_refl.
  - symmetry. apply N.eqb_neq. intros Heq. apply Hne.
    rewrite <- (ascii_N_embedding a), <- (ascii_N_embedding b). congruence.
Qed.

(** On a lower-case letter [b], lowering [a] and comparing is the
    comparison of letters ignoring case. *)
Lemma lower_ascii_same_letter (a b : ascii) :
  (97 <= N_of_ascii b)%N → (N_of_ascii b <= 122)%N →
  Ascii.eqb (lower_ascii a) b = same_letter a b.
Proof.
  intros Hlo Hhi. unfold lower_ascii, same_letter. cbv zeta.
  pose proof (N_ascii_bounded a) as Ha.
  destruct (N.leb_spec 65 (N_of_ascii a)); destruct (N.leb_spec (N_of_ascii a) 90);
    cbn [andb]; rewrite ascii_eqb_N, ?N_ascii_embedding by lia;
    repeat match goal with
      | |- context [(?x =? ?y)%N] => destruct (N.eqb_spec x y)
      | |- context [(?x <=? ?y)%N] => destruct (N.leb_spec x y)
      end; cbn [andb orb]; try reflexivity; lia.
Qed.

Lemma lower_eq_ignoring_case (t : string) :
  lowercase t = true →
  ∀ s, String.eqb (lower s) t = eq_ignoring_case s t.
Proof.
  induction t as [|b t IH]; intros Hlow s; destruct s as [|a s]; simpl; try reflexivity.
  simpl in Hlow. apply andb_prop in Hlow as [Hb Ht].
  apply andb_prop in Hb as [Hb1 Hb2]. apply N.leb_le in Hb1, Hb2.
  rewrite (lower_ascii_same_letter a b Hb1 Hb2), (IH Ht).
  destruct (same_letter a b); reflexivity.
Qed.

Lemma get_severity_loop_spec (vs : list RetireJSVulnerability) :
  Forall severity_is_string vs →
  get_severity_loop vs
  = Ok (if existsb reported_high vs then severity.MEDIUM else severity.LOW).
Proof.
  induction 1 as [|v vs [s Hs] _ IH]; simpl; [reflexivity|].
  unfold reported_high at 1. rewrite Hs; simpl.
  rewrite (lower_eq_ignoring_case "high" eq_refl s).
  destruct (eq_ignoring_case s "high"); simpl; [reflexivity | exact IH].
Qed.

Lemma get_severity_loop_range vs sev :
  get_severity_loop vs = Ok sev → sev = severity.MEDIUM ∨ sev = severity.LOW.
Proof.
  induction vs as [|v vs IH]; simpl.
  - intros [= <-]. by right.
  - destruct (py_lower (vuln_sev v)) as [s|e]; [|discriminate].
    destruct (String.eqb s "high"); [intros [= <-]; by left | exact IH].
Qed.

(** *** [_handle_result] on a JSON object, branch by branch *)

Lemma handle_result_obj r fields st :
  _handle_result py_str r (JObj fields) st =
    let version := default JNull (dict_lookup fields "version") in
    let component := default JNull (dict_lookup fields "component") in
    let vulnerabilities := default (JArr []) (dict_lookup fields "vulnerabilities") in
    if is_None version || is_None component
    then (Ok tt, emit (OmDebug MSG_MISSING_ATTRIBUTE None) st)
    else if negb (py_truthy vulnerabilities)
    then (Ok tt, emit (OmDebug MSG_NO_VULNERABILITIES None) st)
    else
      match py_iter vulnerabilities with
      | Raise e => (Raise e, st)
      | Ok items =>
          match add_vulnerabilities
                  (mkVulnerabilityMessage r component version []) items with
          | Raise e => (Raise e, st)
          | Ok message =>
              match get_severity message with
              | Raise e => (Raise e, st)
              | Ok real_severity =>
                  (Ok tt,
                   append_uniq
                     (mkVuln "Vulnerable JavaScript library in use"
                             (to_string py_str message) real_severity
                             (get_id r) "retirejs" (get_uri r)) st)
              end
          end
      end.
Proof.
  unfold _handle_result, bind, lift, py_get, om_out_debug, kb_append_uniq, modify.
  cbv zeta.
  destruct (is_None _ || is_None _); [reflexivity|].
  destruct (negb (py_truthy _)); [reflexivity|].
  destruct (py_iter _) as [items|e]; [|reflexivity].
  destruct (add_vulnerabilities _ _) as [message|e]; [|reflexivity].
  destruct (get_severity message); reflexivity.
Qed.

Lemma handle_result_not_obj r j st :
  (∀ fields, j ≠ JObj fields) →
  _handle_result py_str r j st = (Raise AttributeError, st).
Proof.
  intros Hj. destruct j; try reflexivity. by destruct (Hj fields).
Qed.

Lemma append_uniq_kb v w st :
  w ∈ kb (append_uniq v st) → w ∈ kb st ∨ w = v.
Proof.
  unfold append_uniq. destruct (existsb _ _); simpl; [by left|].
  intros Hin. apply elem_of_app in Hin as [Hin|Hin]; [by left|].
  right. by apply list_elem_of_singleton in Hin.
Qed.

(** C2 (severity normalization).  When the severities of the constituent
    vulnerabilities are strings, [get_severity] is [MEDIUM] if one of them
    equals "high" ignoring case and [LOW] otherwise.  A record that
    [_handle_result] adds to the knowledge base comes from a result object:
    its text renders the message the loop built from the entries of that
    object, and its severity is what [get_severity] returns for that very
    message, hence [MEDIUM] or [LOW] and not a severity of the analyzer.
    Conversely, once the message is built and its severity derived, the
    record handed to the knowledge base is the one with that severity, and
    it is stored when the knowledge base has no record for the URL yet. *)
Theorem severity_normalization :
  (∀ message,
     Forall severity_is_string (vulnerabilities message) →
     get_severity message
     = Ok (if existsb reported_high (vulnerabilities message)
           then severity.MEDIUM else severity.LOW))
  ∧ (∀ r json_result st v,
       v ∈ kb (snd (_handle_result py_str r json_result st)) →
       v ∈ kb st
       ∨ (∃ fields items message,
            json_result = JObj fields
            ∧ py_iter (default (JArr []) (dict_lookup fields "vulnerabilities")) = Ok items
            ∧ add_vulnerabilities
                (mkVulnerabilityMessage r
                   (default JNull (dict_lookup fields "component"))
                   (default JNull (dict_lookup fields "version")) [])
                items = Ok message
            ∧ vuln_desc v = to_string py_str message
            ∧ get_severity message = Ok (vuln_severity v)
            ∧ (vuln_severity v = severity.MEDIUM ∨ vuln_severity v = severity.LOW)))
  ∧ (∀ r fields st items message sev,
       default JNull (dict_lookup fields "version") ≠ JNull →
       default JNull (dict_lookup fields "component") ≠ JNull →
       py_truthy (default (JArr []) (dict_lookup fields "vulnerabilities")) = true →
       py_iter (default (JArr []) (dict_lookup fields "vulnerabilities")) = Ok items →
       add_vulnerabilities
         (mkVulnerabilityMessage r
            (default JNull (dict_lookup fields "component"))
            (default JNull (dict_lookup fields "version")) [])
         items = Ok message →
       get_severity message = Ok sev →
       let record :=
         mkVuln "Vulnerable JavaScript library in use" (to_string py_str message) sev
                (get_id r) "retirejs" (get_uri r) in
       let out := _handle_result py_str r (JObj fields) st in
       out = (Ok tt, append_uniq record st)
       ∧ (existsb (λ w, String.eqb (vuln_uri w) (get_uri r)) (kb st) = false →
          kb (snd out) = kb st ++ [record])).
Proof.
  split; [|split].
  - intros message Hstr. apply get_severity_loop_spec, Hstr.
  - intros r json_result st v.
    destruct json_result;
      try (rewrite handle_result_not_obj by discriminate; simpl; by left).
    rewrite handle_result_obj; cbv zeta.
    destruct (is_None _ || is_None _); [simpl; by left|].
    destruct (negb (py_truthy _)); [simpl; by left|].
    destruct (py_iter _) as [items|e] eqn:Hiter; [|simpl; by left].
    destruct (add_vulnerabilities _ _) as [message|e] eqn:Hadd; [|simpl; by left].
    destruct (get_severity message) as [sev|e] eqn:Hsev; [|simpl; by left].
    cbn [snd]. intros Hin. apply append_uniq_kb in Hin as [Hin| ->]; [by left|].
    right. exists fields, items, message. cbn [vuln_desc vuln_severity].
    split; [reflexivity|]. split; [exact Hiter|]. split; [exact Hadd|].
    split; [reflexivity|]. split; [exact Hsev|].
    exact (get_severity_loop_range _ _ Hsev).
  - intros r fields st items message sev Hver Hcomp Htruthy Hiter Hadd Hsev record out.
    assert (out = (Ok tt, append_uniq record st)) as Hout.
    { subst out record. rewrite handle_result_obj; cbv zeta.
      replace (is_None (default JNull (dict_lookup fields "version"))) with false
        by (destruct (default JNull (dict_lookup fields "version")); done).
      replace (is_None (default JNull (dict_lookup fields "component"))) with false
        by (destruct (default JNull (dict_lookup fields "component")); done).
      rewrite Htruthy, Hiter, Hadd, Hsev. reflexivity. }
    split; [exact Hout|]. intros Hnew. rewrite Hout. cbn [snd].
    unfold append_uniq. subst record. cbn [vuln_uri]. rewrite Hnew. reflexivity.
Qed.

(** *** [_analyze_file], branch by branch *)

Lemma analyze_file_spec response_file st :
  let json_file := mktemp "retirejs-output-" ".w3af" (files st) in
  let cmd := RETIRE_CMD json_file response_file in
  let ran := retire cmd (<[json_file := ""]> (files st)) in
  let started :=
    [EvMkTemp json_file; EvPopen cmd; EvTimerStart RETIRE_TIMEOUT; EvWait; EvTimerCancel] in
  _analyze_file json_loads retire mktemp response_file st =
    if snd ran =? 0
    then (Ok (JArr []),
          after st (delete json_file (fst ran)) (started ++ [EvRemove json_file]))
    else
      match fst ran !! json_file with
      | None =>
          (Ok (JArr []),
           after st (delete json_file (fst ran))
             (started ++ [EvOpen json_file; OmDebug MSG_PARSE_FAILED (Some IOError);
                          EvRemove json_file]))
      | Some data =>
          match json_loads data with
          | None =>
              (Ok (JArr []),
               after st (delete json_file (fst ran))
                 (started ++ [EvOpen json_file;
                              OmDebug MSG_PARSE_FAILED (Some ValueError);
                              EvRemove json_file]))
          | Some doc =>
              (Ok doc,
               after st (delete json_file (fst ran))
                 (started ++ [EvOpen json_file; EvRemove json_file]))
          end
      end.
Proof.
  cbv zeta.
  unfold _analyze_file, NamedTemporaryFile, run_with_watchdog, _remove_file, os_remove,
    file_read, py_json_loads, om_out_debug, try_except, bind, get_state, modify, ret,
    raise.
  cbn [files set_files emit].
  destruct (retire _ _) as [fs returncode]; cbn [fst snd].
  destruct (returncode =? 0); cbn [negb files set_files emit fst snd any_exception].
  - destruct (fs !! _) eqn:Hf; cbn [any_exception];
      rewrite ?(delete_id _ _ Hf); state_eq.
  - destruct (fs !! _) eqn:Hf; cbn [files set_files emit fst snd any_exception].
    + destruct (json_loads _); cbn [files set_files emit fst snd any_exception];
        rewrite Hf; state_eq.
    + rewrite Hf; cbn [any_exception]. rewrite (delete_id _ _ Hf). state_eq.
Qed.

(** C3 (exit-status convention).  When the analyzer ends with status zero,
    [_analyze_file] returns the empty list and opens no file; when it ends
    with a nonzero status, the one file opened is the output file, and the
    value returned is the parsed document if there is one and the empty
    list otherwise.  So an open of the output file implies a nonzero
    status. *)
Theorem exit_status_convention response_file st :
  let json_file := mktemp "retirejs-output-" ".w3af" (files st) in
  let ran := retire (RETIRE_CMD json_file response_file)
                    (<[json_file := ""]> (files st)) in
  let out := _analyze_file json_loads retire mktemp response_file st in
  (snd ran = 0 →
     fst out = Ok (JArr []) ∧ opened (trace (snd out)) = opened (trace st))
  ∧ (snd ran ≠ 0 →
     opened (trace (snd out)) = opened (trace st) ++ [json_file]
     ∧ fst out = Ok (default (JArr []) (fst ran !! json_file ≫= json_loads)))
  ∧ (opened (trace (snd out)) ≠ opened (trace st) → snd ran ≠ 0).
Proof.
  cbv zeta. rewrite analyze_file_spec; cbv zeta.
  destruct (retire _ _) as [fs returncode]; cbn [fst snd].
  destruct (Z.eqb_spec returncode 0) as [Hrc|Hrc].
  - cbn [fst snd after trace]. rewrite opened_app; simpl. rewrite app_nil_r.
    split; [done|]. split; intros; congruence.
  - split; [intros; congruence|]. split; [|done]. intros _.
    destruct (fs !! _) as [data|]; cbn [mbind option_bind];
      [destruct (json_loads data)|];
      cbn [fst snd after trace default]; rewrite opened_app; simpl; done.
Qed.

(** C4 (parse-failure resilience).  When the analyzer ends with a nonzero
    status and the output file is missing or [json.loads] rejects its
    content, [_analyze_file] logs the failure with the exception and
    returns the empty list.  Whatever the analyzer did, [_analyze_file]
    returns a value: no exception leaves it. *)
Theorem parse_failure_resilience response_file st :
  let json_file := mktemp "retirejs-output-" ".w3af" (files st) in
  let ran := retire (RETIRE_CMD json_file response_file)
                    (<[json_file := ""]> (files st)) in
  let out := _analyze_file json_loads retire mktemp response_file st in
  is_Ok (fst out) = true
  ∧ (snd ran ≠ 0 →
     fst ran !! json_file ≫= json_loads = None →
     fst out = Ok (JArr [])
     ∧ ∃ e evs, trace (snd out) = trace st ++ evs
                ∧ OmDebug MSG_PARSE_FAILED (Some e) ∈ evs).
Proof.
  cbv zeta. rewrite analyze_file_spec; cbv zeta.
  destruct (retire _ _) as [fs returncode]; cbn [fst snd].
  destruct (Z.eqb_spec returncode 0) as [Hrc|Hrc].
  - split; [reflexivity | intros; congruence].
  - destruct (fs !! _) as [data|]; cbn [mbind option_bind];
      [destruct (json_loads data) as [doc|]|].
    + split; [reflexivity | intros _ [=]].
    + split; [reflexivity|]. intros _ _. split; [reflexivity|].
      eexists ValueError, _. cbn [snd after trace]. split; [reflexivity|].
      apply list_elem_of_In. do 6 right. left. reflexivity.
    + split; [reflexivity|]. intros _ _. split; [reflexivity|].
      eexists IOError, _. cbn [snd after trace]. split; [reflexivity|].
      apply list_elem_of_In. do 6 right. left. reflexivity.
Qed.

(** *** Interpreting the document touches nothing but the knowledge base *)

Lemma quiet_refl st : quiet st st.
Proof.
  repeat split. exists []. split; [by rewrite app_nil_r | constructor].
Qed.

Lemma quiet_trans a b c : quiet a b → quiet b c → quiet a c.
Proof.
  intros (Hh1 & Hf1 & Hc1 & evs1 & Ht1 & Hl1) (Hh2 & Hf2 & Hc2 & evs2 & Ht2 & Hl2).
  split; [eapply same_hashes_trans; eassumption|].
  split; [eapply same_files_trans; eassumption|].
  split; [eapply same_check_trans; eassumption|].
  exists (evs1 ++ evs2). split.
  - rewrite Ht2, Ht1, app_assoc. reflexivity.
  - apply Forall_app. by split.
Qed.

Lemma quiet_debug msg arg st : quiet st (emit (OmDebug msg arg) st).
Proof.
  repeat split. exists [OmDebug msg arg]. split; [reflexivity|].
  repeat constructor.
Qed.

Lemma quiet_append_uniq v st : quiet st (append_uniq v st).
Proof.
  unfold append_uniq. destruct (existsb _ _); [apply quiet_refl|].
  repeat split. exists []. split; [by rewrite app_nil_r | constructor].
Qed.

Lemma json_to_kb_quiet r doc : keeps quiet (_json_to_kb py_str r doc).
Proof.
  unfold _json_to_kb, _handle_finding, _handle_result, kb_append_uniq.
  frame quiet_refl quiet_trans;
    first [apply quiet_debug | apply quiet_append_uniq].
Qed.

Lemma created_app (t u : list event) : created (t ++ u) = created t ++ created u.
Proof.
  induction t as [|ev t IH]; simpl; [reflexivity|].
  destruct ev; simpl; rewrite ?IH; reflexivity.
Qed.

Lemma created_logs (evs : list event) : Forall is_log evs → created evs = [].
Proof.
  induction 1 as [|ev evs Hev _ IH]; simpl; [reflexivity|].
  destruct ev; simpl in Hev; try contradiction; exact IH.
Qed.

Lemma remove_file_spec p st :
  _remove_file p st = (Ok tt, after st (delete p (files st)) [EvRemove p]).
Proof.
  unfold _remove_file, os_remove, try_except, bind, get_state, modify, ret, raise.
  cbn [files emit fst snd].
  destruct (files st !! p) eqn:Hf; cbn [any_exception];
    rewrite ?(delete_id _ _ Hf); state_eq.
Qed.

(** Whatever branch [_analyze_file] takes, it returns a document, its output
    file is the one temporary file it created, and that file is gone. *)
Lemma analyze_file_effect response_file st :
  let json_file := mktemp "retirejs-output-" ".w3af" (files st) in
  let ran := retire (RETIRE_CMD json_file response_file)
                    (<[json_file := ""]> (files st)) in
  ∃ doc evs,
    _analyze_file json_loads retire mktemp response_file st
    = (Ok doc, after st (delete json_file (fst ran)) evs)
    ∧ created evs = [json_file].
Proof.
  cbv zeta. rewrite analyze_file_spec; cbv zeta.
  destruct (_ =? 0); [|destruct (_ !! _) as [data|]; [destruct (json_loads data)|]];
    eexists _, _; (split; [reflexivity|reflexivity]).
Qed.

Lemma save_response_spec r st :
  let response_file := mktemp "retirejs-response-" ".w3af.js" (files st) in
  _save_response_to_file mktemp r st
  = (Ok response_file,
     after st (<[response_file := get_body r]> (<[response_file := ""]> (files st)))
           [EvMkTemp response_file; EvWrite response_file (get_body r)]).
Proof.
  cbv zeta.
  unfold _save_response_to_file, NamedTemporaryFile, file_write, bind, get_state,
    modify, ret.
  state_eq.
Qed.

(** The files and the temporary names after [_analyze_response], whatever
    its outcome. *)
Lemma analyze_response_effect r st res st' :
  let response_file := mktemp "retirejs-response-" ".w3af.js" (files st) in
  let files1 := <[response_file := get_body r]> (<[response_file := ""]> (files st)) in
  let json_file := mktemp "retirejs-output-" ".w3af" files1 in
  let ran := retire (RETIRE_CMD json_file response_file)
                    (<[json_file := ""]> files1) in
  _analyze_response json_loads retire mktemp py_str r st = (res, st') →
  files st' = delete response_file (delete json_file (fst ran))
  ∧ created (trace st') = created (trace st) ++ [response_file; json_file].
Proof.
  cbv zeta. unfold _analyze_response.
  unfold bind at 1. rewrite save_response_spec; cbv zeta.
  unfold bind at 1.
  match goal with
  | |- context [_analyze_file _ _ _ ?f ?s] =>
      destruct (analyze_file_effect f s) as (doc & evs & Hrun & Hcreated)
  end.
  cbn [files after] in Hrun. rewrite Hrun.
  unfold bind at 1. rewrite remove_file_spec.
  match goal with
  | |- context [_json_to_kb _ _ _ ?s] => set (S := s)
  end.
  destruct (json_to_kb_quiet r doc S) as (_ & Hfiles & _ & logs & Htrace & Hlogs).
  intros Hout. rewrite Hout in Hfiles, Htrace. cbn [snd] in Hfiles, Htrace.
  unfold same_files in Hfiles. rewrite Hfiles, Htrace. subst S.
  cbn [after files trace]. split; [reflexivity|].
  rewrite !created_app, Hcreated, (created_logs _ Hlogs). simpl.
  repeat (rewrite ?app_nil_r, <- ?app_assoc; simpl). reflexivity.
Qed.

(** C8 (unconditional artifact cleanup).  [_analyze_response] creates two
    temporary files, the input file and the output file, and when it
    returns, with or without an exception from the interpretation of the
    document, neither exists: this holds for every analyzer behaviour
    (killed by the watchdog, unparsable output, ...).  [_remove_file] itself
    never raises, whether or not the file exists. *)
Theorem artifact_cleanup r st :
  let response_file := mktemp "retirejs-response-" ".w3af.js" (files st) in
  let files1 := <[response_file := get_body r]> (<[response_file := ""]> (files st)) in
  let json_file := mktemp "retirejs-output-" ".w3af" files1 in
  let out := _analyze_response json_loads retire mktemp py_str r st in
  created (trace (snd out)) = created (trace st) ++ [response_file; json_file]
  ∧ files (snd out) !! response_file = None
  ∧ files (snd out) !! json_file = None
  ∧ (∀ p st0, fst (_remove_file p st0) = Ok tt
              ∧ files (snd (_remove_file p st0)) !! p = None).
Proof.
  intros response_file files1 json_file out.
  destruct out as [res st'] eqn:Hout. subst out.
  destruct (analyze_response_effect r st res st' Hout) as [Hfiles Hcreated].
  cbn [snd]. rewrite Hfiles. repeat split.
  - exact Hcreated.
  - apply lookup_delete_eq.
  - fold response_file files1 json_file.
    destruct (decide (response_file = json_file)) as [Heq|Hne].
    + rewrite <- Heq. apply lookup_delete_eq.
    + rewrite lookup_delete_ne by exact Hne. apply lookup_delete_eq.
  - rewrite remove_file_spec. reflexivity.
  - rewrite remove_file_spec. apply lookup_delete_eq.
Qed.

(** C6 (malformed-finding filtering).  For a result entry (a JSON object)
    whose component is absent, whose version is absent or whose
    vulnerabilities list is empty or absent, [_handle_result] returns
    normally, leaves the knowledge base as it was and only logs one
    diagnostic; the loop of [_handle_finding] then goes on with the
    remaining entries from that state. *)
Theorem malformed_finding_filtering r fields st :
  dict_lookup fields "component" = None
  ∨ dict_lookup fields "version" = None
  ∨ default (JArr []) (dict_lookup fields "vulnerabilities") = JArr [] →
  let out := _handle_result py_str r (JObj fields) st in
  fst out = Ok tt
  ∧ kb (snd out) = kb st
  ∧ (∃ msg, snd out = emit (OmDebug msg None) st)
  ∧ (∀ rest,
       for_each (JObj fields :: rest) (_handle_result py_str r) st
       = for_each rest (_handle_result py_str r) (snd out)).
Proof.
  intros Hbad out.
  assert (∃ msg, out = (Ok tt, emit (OmDebug msg None) st)) as [msg Hout].
  { subst out. rewrite handle_result_obj; cbv zeta.
    destruct Hbad as [Hc|[Hv|Hl]].
    - rewrite Hc. cbn [default is_None]. rewrite orb_true_r. by eexists.
    - rewrite Hv. cbn [default is_None orb]. by eexists.
    - rewrite Hl. destruct (_ || _); cbn [py_truthy List.length Nat.eqb negb];
        by eexists. }
  assert (∀ rest,
    for_each (JObj fields :: rest) (_handle_result py_str r) st
    = for_each rest (_handle_result py_str r) (snd out)) as Hrest.
  { intros rest. cbn [for_each]. unfold bind at 1. fold out. rewrite Hout.
    reflexivity. }
  rewrite Hout in *. cbn [fst snd]. repeat split; [by exists msg | exact Hrest].
Qed.

(** *** The self-check *)

Lemma exit_code_first st :
  _retirejs_exit_code_was_run st = false →
  let check_file := mktemp "retirejs-check-" ".w3af" (files st) in
  let files1 := <[check_file := ""]> (<[check_file := ""]> (files st)) in
  let output_file := mktemp "retirejs-output-" ".w3af" files1 in
  let cmd := RETIRE_CMD output_file check_file in
  let ran := retire cmd (<[output_file := ""]> files1) in
  let ok := snd ran =? 0 in
  _retirejs_exit_code retire mktemp st =
    (Ok (Some ok),
     set_exit_code true (Some ok)
       (after st (delete check_file (delete output_file (fst ran)))
          [EvMkTemp check_file; EvWrite check_file ""; EvMkTemp output_file;
           EvCheckOutput cmd;
           if ok then OmDebug "retire.js returned the expected exit code." None
           else OmError "Unexpected retire.js exit code. Disabling grep.retirejs plugin.";
           EvRemove output_file; EvRemove check_file])).
Proof.
  intros Hrun. cbv zeta.
  unfold _retirejs_exit_code. unfold bind at 1. unfold get_state at 1. rewrite Hrun.
  unfold NamedTemporaryFile, file_write, check_output, om_out_error, om_out_debug.
  unfold try_finally, try_except, bind, get_state, modify, ret, raise.
  cbn [files set_files emit].
  destruct (retire _ _) as [fs returncode]; cbn [fst snd].
  destruct (returncode =? 0); cbn [files set_files emit fst snd];
    rewrite !remove_file_spec; cbn [fst snd]; state_eq.
Qed.

Lemma grep_disabled req r st :
  _retirejs_exit_code_was_run st = true →
  _retirejs_exit_code_result st = Some false →
  grep md5 json_loads retire mktemp py_str req r st = (Ok tt, st).
Proof.
  intros Hrun Hres. unfold grep, bind. rewrite (exit_code_memo st Hrun), Hres.
  reflexivity.
Qed.

(** C7 (health-check memoization and permanent disable).  The first call of
    [_retirejs_exit_code] runs the analyzer exactly once, on a check file
    that is empty at that moment; it stores and returns [True] exactly when
    the exit status is 0 and [False] otherwise, and in both cases the check
    file and the output file are gone afterwards.  Every later call returns
    the stored value and changes nothing, so it starts no process.  While
    the stored value is [False], [grep] returns at once on every request
    and response, and a whole session leaves the state as it is. *)
Theorem health_check_memoization st :
  (_retirejs_exit_code_was_run st = false →
     let check_file := mktemp "retirejs-check-" ".w3af" (files st) in
     let files1 := <[check_file := ""]> (<[check_file := ""]> (files st)) in
     let output_file := mktemp "retirejs-output-" ".w3af" files1 in
     let cmd := RETIRE_CMD output_file check_file in
     let files2 := <[output_file := ""]> files1 in
     let ok := snd (retire cmd files2) =? 0 in
     let out := _retirejs_exit_code retire mktemp st in
     fst out = Ok (Some ok)
     ∧ _retirejs_exit_code_result (snd out) = Some ok
     ∧ _retirejs_exit_code_was_run (snd out) = true
     ∧ invocations (trace (snd out)) = invocations (trace st) ++ [cmd]
     ∧ files2 !! check_file = Some ""
     ∧ files (snd out) !! check_file = None
     ∧ files (snd out) !! output_file = None
     ∧ _retirejs_exit_code retire mktemp (snd out) = (fst out, snd out))
  ∧ (_retirejs_exit_code_was_run st = true →
     _retirejs_exit_code retire mktemp st = (Ok (_retirejs_exit_code_result st), st)
     ∧ (_retirejs_exit_code_result st = Some false →
        (∀ req r, grep md5 json_loads retire mktemp py_str req r st = (Ok tt, st))
        ∧ (∀ calls, session md5 json_loads retire mktemp py_str calls st = st))).
Proof.
  split.
  - intros Hrun check_file files1 output_file cmd files2 ok out.
    pose proof (exit_code_first st Hrun) as Hfirst. cbv zeta in Hfirst.
    fold check_file files1 output_file cmd files2 ok out in Hfirst.
    rewrite Hfirst. cbn [fst snd set_exit_code after
      _retirejs_exit_code_result _retirejs_exit_code_was_run files trace].
    split; [reflexivity|]. split; [reflexivity|]. split; [reflexivity|].
    split.
    { rewrite invocations_app. f_equal. destruct ok; reflexivity. }
    split.
    { unfold files2, files1. destruct (decide (output_file = check_file)) as [->|Hne].
      - apply lookup_insert_eq.
      - rewrite lookup_insert_ne by exact Hne. apply lookup_insert_eq. }
    split; [apply lookup_delete_eq|].
    split.
    { destruct (decide (check_file = output_file)) as [Heq|Hne].
      - rewrite <- Heq. apply lookup_delete_eq.
      - rewrite lookup_delete_ne by exact Hne. apply lookup_delete_eq. }
    apply exit_code_memo. reflexivity.
  - intros Hrun. split; [exact (exit_code_memo st Hrun)|].
    intros Hres. split; [intros req r; exact (grep_disabled req r st Hrun Hres)|].
    intros calls. induction calls as [|[req r] rest IH]; cbn [session]; [reflexivity|].
    rewrite (grep_disabled req r st Hrun Hres). exact IH.
Qed.

(** C9 (recording is not atomic with analysis).  For a response whose URL
    fingerprint is fresh: if the body fingerprint is already cached,
    [_should_analyze] adds the URL fingerprint and returns [False]; if the
    body fingerprint is fresh as well, both fingerprints are in the cache
    when [_should_analyze] returns (with [True] unless the two fingerprints
    coincide), and they stay there whatever the outcome of the analysis
    that follows. *)
Theorem recording_not_atomic r st :
  let url_hash := md5 (get_url r) in
  let response_hash := md5 (get_body r) in
  let out := _should_analyze md5 r st in
  url_hash ∉ _analyzed_hashes st →
  (response_hash ∈ _analyzed_hashes st →
     out = (Ok false, set_hashes ({[url_hash]} ∪ _analyzed_hashes st) st))
  ∧ (response_hash ∉ _analyzed_hashes st →
     _analyzed_hashes (snd out)
     = {[response_hash]} ∪ ({[url_hash]} ∪ _analyzed_hashes st)
     ∧ fst out = Ok (bool_decide (url_hash ≠ response_hash))
     ∧ ∀ res st',
         _analyze_response json_loads retire mktemp py_str r (snd out) = (res, st') →
         _analyzed_hashes st' = _analyzed_hashes (snd out)).
Proof.
  intros url_hash response_hash out Hurl. subst out.
  rewrite should_analyze_spec; cbv zeta. fold url_hash response_hash.
  destruct (decide (url_hash ∈ _analyzed_hashes st)); [contradiction|].
  split.
  - intros Hbody.
    destruct (decide (response_hash ∈ {[url_hash]} ∪ _analyzed_hashes st));
      [reflexivity | set_solver].
  - intros Hbody.
    destruct (decide (response_hash ∈ {[url_hash]} ∪ _analyzed_hashes st)) as [Hin|Hin];
      cbn [fst snd set_hashes _analyzed_hashes].
    + assert (url_hash = response_hash) as Heq by set_solver.
      split; [set_solver|]. split.
      { rewrite bool_decide_eq_false_2; [reflexivity | by intros []]. }
      intros res st' Hrun.
      pose proof (analyze_response_hashes r
        (set_hashes ({[url_hash]} ∪ _analyzed_hashes st) st)) as Hkeep.
      unfold same_hashes in Hkeep. rewrite Hrun in Hkeep. exact Hkeep.
    + split; [reflexivity|]. split.
      { rewrite bool_decide_eq_true_2; [reflexivity | set_solver]. }
      intros res st' Hrun.
      pose proof (analyze_response_hashes r
        (set_hashes ({[response_hash]} ∪ ({[url_hash]} ∪ _analyzed_hashes st)) st))
        as Hkeep.
      unfold same_hashes in Hkeep. rewrite Hrun in Hkeep. exact Hkeep.
Qed.

(** *** Rendering *)

Lemma append_cons a (s t : string) : String a s +:+ t = String a (s +:+ t).
Proof. reflexivity. Qed.

Lemma append_empty_r (s : string) : s +:+ "" = s.
Proof.
  induction s as [|a s IH]; [reflexivity|]. rewrite append_cons, IH. reflexivity.
Qed.

Lemma append_assoc (s t u : string) : (s +:+ t) +:+ u = s +:+ t +:+ u.
Proof.
  induction s as [|a s IH]; [reflexivity|]. rewrite !append_cons, IH. reflexivity.
Qed.

Lemma occurs_in_refl (s : string) : occurs_in s s.
Proof. exists "", "". rewrite append_empty_r. reflexivity. Qed.

Lemma occurs_in_prefixed (x p s : string) : occurs_in x s → occurs_in x (p +:+ s).
Proof.
  intros (a & b & ->). exists (p +:+ a), b. rewrite append_assoc. reflexivity.
Qed.

Lemma occurs_in_suffixed (x s q : string) : occurs_in x s → occurs_in x (s +:+ q).
Proof.
  intros (a & b & ->). exists a, (b +:+ q). rewrite !append_assoc. reflexivity.
Qed.

Lemma join_occurs (sep p : string) (parts : list string) :
  In p parts → occurs_in p (join sep parts).
Proof.
  induction parts as [|p0 rest IH]; [intros []|].
  intros [->|Hin].
  - destruct rest as [|p1 rest]; [apply occurs_in_refl|].
    change (occurs_in p (p +:+ sep +:+ join sep (p1 :: rest))).
    apply occurs_in_suffixed, occurs_in_refl.
  - destruct rest as [|p1 rest]; [destruct Hin|].
    change (occurs_in p (p0 +:+ sep +:+ join sep (p1 :: rest))).
    apply occurs_in_prefixed, occurs_in_prefixed, IH, Hin.
Qed.

(** Every vulnerability of a message has its line in the rendered text. *)
Lemma to_string_line (message : VulnerabilityMessage) (v : RetireJSVulnerability) :
  In v (vulnerabilities message) →
  occurs_in (" - " +:+ fmt_s py_str (summary v)) (to_string py_str message).
Proof.
  intros Hin. unfold to_string.
  do 11 apply occurs_in_prefixed. apply occurs_in_suffixed.
  unfold summaries_of. apply join_occurs.
  apply (in_map (λ vuln, " - " +:+ fmt_s py_str (summary vuln))), Hin.
Qed.

(** The loop of [_handle_result] appends one object per entry, in order. *)
Lemma add_vulnerabilities_all items : ∀ message message',
  add_vulnerabilities message items = Ok message' →
  ∃ vs, vulnerabilities message' = vulnerabilities message ++ vs
        ∧ Forall2 (λ entry v, retire_vuln_of entry = Ok v) items vs
        ∧ response message' = response message
        ∧ component message' = component message
        ∧ version message' = version message.
Proof.
  induction items as [|entry rest IH]; intros message message'; simpl.
  - intros [= <-]. exists []. rewrite app_nil_r. repeat split. constructor.
  - destruct (retire_vuln_of entry) as [v|e] eqn:Hv; simpl; [|discriminate].
    intros Hrest. destruct (IH _ _ Hrest) as (vs & Hvs & Hall & Hr & Hc & Hver).
    exists (v :: vs). simpl in Hvs. rewrite <- app_assoc in Hvs.
    repeat split; try assumption. by constructor.
Qed.

Lemma get_severity_loop_skip pre v post :
  vuln_sev v = JStr "unknown" →
  get_severity_loop (pre ++ v :: post) = get_severity_loop (pre ++ post).
Proof.
  intros Hv. induction pre as [|w pre IH]; simpl.
  - rewrite Hv. reflexivity.
  - destruct (py_lower (vuln_sev w)) as [s|e]; [|reflexivity].
    destruct (String.eqb s "high"); [reflexivity | exact IH].
Qed.

Lemma retire_vuln_of_well_formed j :
  well_formed_entry j → ∃ v, retire_vuln_of j = Ok v ∧ severity_is_string v.
Proof.
  intros (fields & -> & [s Hs] & [ids Hids]).
  unfold retire_vuln_of, rbind, py_get. rewrite Hs, Hids.
  eexists. split; [reflexivity|]. by exists s.
Qed.

Lemma add_vulnerabilities_well_formed items : ∀ message,
  Forall well_formed_entry items →
  Forall severity_is_string (vulnerabilities message) →
  ∃ message', add_vulnerabilities message items = Ok message'
              ∧ Forall severity_is_string (vulnerabilities message').
Proof.
  induction items as [|j rest IH]; intros message Hitems Hmsg; cbn [add_vulnerabilities].
  - by exists message.
  - inversion Hitems as [|j' l Hj Hrest]; subst.
    destruct (retire_vuln_of_well_formed j Hj) as (v & -> & Hv). cbn [rbind].
    apply IH; [exact Hrest|]. cbn [add_vulnerability vulnerabilities].
    apply Forall_app. split; [exact Hmsg | by constructor].
Qed.

(** C10 (defaults inside a kept result).  In a vulnerability entry (a JSON
    object) a missing [severity] reads as ['unknown'], a missing
    [identifiers] or a missing [summary] inside it reads as ['unknown'],
    and a missing [info] reads as the empty list; an entry without
    [identifiers] always yields an object.  The loop keeps one object per
    entry, in order; each of them has its line in the rendered text; and an
    entry whose severity is ['unknown'] has no influence on the derived
    severity.  In [_handle_result] itself: for a result with version and
    component whose entries have the documented shape, an entry with
    missing fields is kept at its place in the message the loop builds,
    the record handed to the knowledge base renders that message, the
    entry's line with its (possibly defaulted) summary is in the text, and
    when the entry has no severity the derived severity is the one the
    other entries give. *)
Theorem vulnerability_defaults :
  (∀ fields v,
     retire_vuln_of (JObj fields) = Ok v →
     (dict_lookup fields "severity" = None → vuln_sev v = JStr "unknown")
     ∧ (dict_lookup fields "identifiers" = None → summary v = JStr "unknown")
     ∧ (∀ ids, dict_lookup fields "identifiers" = Some (JObj ids) →
               dict_lookup ids "summary" = None → summary v = JStr "unknown")
     ∧ (dict_lookup fields "info" = None → info_urls v = JArr []))
  ∧ (∀ fields,
       dict_lookup fields "identifiers" = None →
       is_Ok (retire_vuln_of (JObj fields)) = true)
  ∧ (∀ message items message',
       add_vulnerabilities message items = Ok message' →
       ∃ vs, vulnerabilities message' = vulnerabilities message ++ vs
             ∧ Forall2 (λ entry v, retire_vuln_of entry = Ok v) items vs)
  ∧ (∀ message v,
       In v (vulnerabilities message) →
       occurs_in (" - " +:+ fmt_s py_str (summary v)) (to_string py_str message))
  ∧ (∀ pre v post,
       vuln_sev v = JStr "unknown" →
       get_severity_loop (pre ++ v :: post) = get_severity_loop (pre ++ post))
  ∧ (∀ r fields before entry after st,
       default JNull (dict_lookup fields "version") ≠ JNull →
       default JNull (dict_lookup fields "component") ≠ JNull →
       dict_lookup fields "vulnerabilities" = Some (JArr (before ++ JObj entry :: after)) →
       Forall well_formed_entry (before ++ JObj entry :: after) →
       ∃ message sev pre v post,
         let record :=
           mkVuln "Vulnerable JavaScript library in use" (to_string py_str message) sev
                  (get_id r) "retirejs" (get_uri r) in
         let out := _handle_result py_str r (JObj fields) st in
         out = (Ok tt, append_uniq record st)
         ∧ (existsb (λ w, String.eqb (vuln_uri w) (get_uri r)) (kb st) = false →
            kb (snd out) = kb st ++ [record])
         ∧ add_vulnerabilities
             (mkVulnerabilityMessage r
                (default JNull (dict_lookup fields "component"))
                (default JNull (dict_lookup fields "version")) [])
             (before ++ JObj entry :: after) = Ok message
         ∧ vulnerabilities message = pre ++ v :: post
         ∧ List.length pre = List.length before
         ∧ List.length post = List.length after
         ∧ retire_vuln_of (JObj entry) = Ok v
         ∧ occurs_in (" - " +:+ fmt_s py_str (summary v)) (to_string py_str message)
         ∧ get_severity message = Ok sev
         ∧ (dict_lookup entry "severity" = None →
            vuln_sev v = JStr "unknown" ∧ get_severity_loop (pre ++ post) = Ok sev)).
Proof.
  split; [|split; [|split; [|split; [|split]]]].
  - intros fields v. unfold retire_vuln_of, rbind, py_get.
    destruct (default (JObj []) (dict_lookup fields "identifiers")) as [| | | | |ids] eqn:Hids;
      try discriminate.
    intros [= <-]. cbn [vuln_sev summary info_urls].
    split; [intros ->; reflexivity|].
    split; [intros Hnone; rewrite Hnone in Hids; injection Hids as <-; reflexivity|].
    split; [|intros ->; reflexivity].
    intros ids' Hsome Hsum. rewrite Hsome in Hids. injection Hids as <-.
    rewrite Hsum. reflexivity.
  - intros fields Hnone. unfold retire_vuln_of, rbind, py_get. rewrite Hnone.
    reflexivity.
  - intros message items message' Hadd.
    destruct (add_vulnerabilities_all items message message' Hadd) as (vs & Hvs & Hall & _).
    by exists vs.
  - exact to_string_line.
  - exact get_severity_loop_skip.
  - intros r fields before entry after st Hver Hcomp Hv Hshape.
    destruct (add_vulnerabilities_well_formed (before ++ JObj entry :: after)
                (mkVulnerabilityMessage r (default JNull (dict_lookup fields "component"))
                   (default JNull (dict_lookup fields "version")) [])
                Hshape ltac:(constructor)) as (message & Hadd & Hstr).
    pose proof (get_severity_loop_spec (vulnerabilities message) Hstr) as Hsev.
    fold (get_severity message) in Hsev.
    destruct (add_vulnerabilities_all _ _ _ Hadd) as (vs & Hvs & Hall & _).
    cbn [vulnerabilities app] in Hvs.
    apply Forall2_app_inv_l in Hall as (pre & rest & Hpre & Hrest & ->).
    apply Forall2_cons_inv_l in Hrest as (v & post & Hentry & Hpost & ->).
    exists message,
      (if existsb reported_high (vulnerabilities message)
       then severity.MEDIUM else severity.LOW), pre, v, post.
    cbv zeta.
    assert (_handle_result py_str r (JObj fields) st
            = (Ok tt,
               append_uniq
                 (mkVuln "Vulnerable JavaScript library in use" (to_string py_str message)
                    (if existsb reported_high (vulnerabilities message)
                     then severity.MEDIUM else severity.LOW)
                    (get_id r) "retirejs" (get_uri r)) st)) as Hout.
    { rewrite handle_result_obj; cbv zeta. rewrite Hv.
      change (default (JArr []) (Some (JArr (before ++ JObj entry :: after))))
        with (JArr (before ++ JObj entry :: after)).
      replace (is_None (default JNull (dict_lookup fields "version"))) with false
        by (destruct (default JNull (dict_lookup fields "version")); done).
      replace (is_None (default JNull (dict_lookup fields "component"))) with false
        by (destruct (default JNull (dict_lookup fields "component")); done).
      cbn [orb py_truthy py_iter].
      replace (Nat.eqb (List.length (before ++ JObj entry :: after)) 0) with false
        by (destruct before; done).
      cbn [negb]. rewrite Hadd, Hsev. reflexivity. }
    split; [exact Hout|].
    split.
    { intros Hnew. rewrite Hout. cbn [snd]. unfold append_uniq. cbn [vuln_uri].
      rewrite Hnew. reflexivity. }
    split; [exact Hadd|]. split; [exact Hvs|].
    split; [symmetry; exact (Forall2_length _ _ _ Hpre)|].
    split; [symmetry; exact (Forall2_length _ _ _ Hpost)|].
    split; [exact Hentry|].
    split.
    { apply to_string_line. rewrite Hvs. apply in_or_app. right. by left. }
    split; [exact Hsev|].
    intros Hnone.
    assert (vuln_sev v = JStr "unknown") as Hunknown.
    { revert Hentry. unfold retire_vuln_of, rbind, py_get. rewrite Hnone.
      destruct (default (JObj []) (dict_lookup entry "identifiers")); try discriminate.
      by intros [= <-]. }
    split; [exact Hunknown|].
    rewrite <- (get_severity_loop_skip pre v post Hunknown), <- Hvs. exact Hsev.
Qed.

End Properties.

(** * The embedding on concrete inputs *)

(** The two examples of the specification. *)
Example severity_high_low :
  get_severity
    (mkVulnerabilityMessage demo_response (JStr "jquery") (JStr "1.8.1")
       [mkRetireJSVulnerability (JStr "high") (JStr "a") (JArr []);
        mkRetireJSVulnerability (JStr "low") (JStr "b") (JArr [])])
  = Ok severity.MEDIUM.
Proof. reflexivity. Qed.

Example severity_low_unknown :
  get_severity
    (mkVulnerabilityMessage demo_response (JStr "jquery") (JStr "1.8.1")
       [mkRetireJSVulnerability (JStr "low") (JStr "a") (JArr []);
        mkRetireJSVulnerability (JStr "unknown") (JStr "b") (JArr [])])
  = Ok severity.LOW.
Proof. reflexivity. Qed.

(** A severity that is not a string makes [get_severity] raise, unless an
    earlier entry already decided the answer. *)
Example severity_not_a_string :
  get_severity
    (mkVulnerabilityMessage demo_response (JStr "jquery") (JStr "1.8.1")
       [mkRetireJSVulnerability (JNum 9) (JStr "a") (JArr []);
        mkRetireJSVulnerability (JStr "high") (JStr "b") (JArr [])])
  = Raise AttributeError.
Proof. reflexivity. Qed.

(** One scan of [demo_response] with an analyzer that reports [demo_doc]:
    one record, of severity [MEDIUM], and no file left. *)
Example demo_scan :
  let out := demo_grep (Some "FINDINGS") 13 demo_request demo_response (init ∅ []) in
  fst out = Ok tt
  ∧ List.map vuln_severity (kb (snd out)) = [severity.MEDIUM]
  ∧ List.map vuln_uri (kb (snd out)) = ["http://w3af.org/js/jquery.js?v=1"]
  ∧ map_to_list (files (snd out)) = []
  ∧ List.length (analyses (trace (snd out))) = 1%nat.
Proof. vm_compute. repeat split. Qed.

(** A watchdog kill shows as a negative status; with an output file that
    holds a complete document the findings are still reported. *)
Example demo_killed_with_output :
  let out := demo_grep (Some "FINDINGS") (-15) demo_request demo_response (init ∅ []) in
  List.map vuln_severity (kb (snd out)) = [severity.MEDIUM].
Proof. vm_compute. reflexivity. Qed.

(** ** Instances of the theorems *)

Lemma dedup_short_circuit_witness :
  demo_md5 (get_url demo_response) ∈ _analyzed_hashes seen_state
  ∧ fst (_should_analyze demo_md5 demo_response seen_state) = Ok false.
Proof.
  assert (demo_md5 (get_url demo_response) ∈ _analyzed_hashes seen_state) as Hseen.
  { unfold seen_state; cbn [_analyzed_hashes]. apply elem_of_singleton_2. reflexivity. }
  split; [exact Hseen|].
  exact (proj1 (proj1 (dedup_short_circuit demo_md5 demo_json_loads
                         (demo_retire None 0) demo_mktemp demo_py_str)
                      demo_response seen_state (or_introl Hseen))).
Defined.

Lemma severity_normalization_witness :
  Forall severity_is_string (vulnerabilities demo_message)
  ∧ get_severity demo_message = Ok severity.MEDIUM.
Proof.
  assert (Forall severity_is_string (vulnerabilities demo_message)) as Hstr.
  { repeat constructor; eexists; reflexivity. }
  split; [exact Hstr|].
  exact (proj1 (severity_normalization demo_py_str) demo_message Hstr).
Defined.

Lemma exit_status_convention_witness :
  snd (demo_retire None 0
         (RETIRE_CMD (demo_mktemp "retirejs-output-" ".w3af" ∅) "/tmp/in.js")
         (<[demo_mktemp "retirejs-output-" ".w3af" ∅ := ""]> ∅)) = 0
  ∧ fst (_analyze_file demo_json_loads (demo_retire None 0) demo_mktemp "/tmp/in.js"
           (init ∅ [])) = Ok (JArr []).
Proof.
  split; [reflexivity|].
  exact (proj1 (proj1 (exit_status_convention demo_json_loads (demo_retire None 0)
                         demo_mktemp "/tmp/in.js" (init ∅ []))
                      eq_refl)).
Defined.

Lemma parse_failure_resilience_witness :
  fst (_analyze_file demo_json_loads (demo_retire (Some "garbage") 13) demo_mktemp
         "/tmp/in.js" (init ∅ [])) = Ok (JArr []).
Proof.
  refine (proj1 (proj2 (parse_failure_resilience demo_json_loads
                          (demo_retire (Some "garbage") 13)
                          demo_mktemp "/tmp/in.js" (init ∅ []))
                       _ _)).
  - vm_compute. discriminate.
  - vm_compute. reflexivity.
Defined.

Lemma malformed_finding_filtering_witness :
  kb (snd (_handle_result demo_py_str demo_response (JObj empty_result) (init ∅ [])))
  = [].
Proof.
  refine (proj1 (proj2 (malformed_finding_filtering demo_py_str demo_response
                          empty_result (init ∅ []) _))).
  right; right. reflexivity.
Defined.

Lemma health_check_memoization_witness :
  fst (_retirejs_exit_code (demo_retire None 0) demo_mktemp (init ∅ []))
  = Ok (Some true).
Proof.
  exact (proj1 (proj1 (health_check_memoization demo_md5 demo_json_loads
                         (demo_retire None 0) demo_mktemp demo_py_str (init ∅ []))
                      eq_refl)).
Defined.

Lemma recording_not_atomic_witness :
  _analyzed_hashes (snd (_should_analyze demo_md5 demo_response (init ∅ [])))
  = {[demo_md5 (get_body demo_response)]}
    ∪ ({[demo_md5 (get_url demo_response)]} ∪ ∅).
Proof.
  refine (proj1 (proj2 (recording_not_atomic demo_md5 demo_json_loads
                          (demo_retire None 0) demo_mktemp demo_py_str
                          demo_response (init ∅ []) _) _)).
  - cbn [init _analyzed_hashes]. apply not_elem_of_empty.
  - cbn [init _analyzed_hashes]. apply not_elem_of_empty.
Defined.

Lemma vulnerability_defaults_witness :
  (∃ v, retire_vuln_of (JObj bare_entry) = Ok v
        ∧ dict_lookup bare_entry "severity" = None
        ∧ vuln_sev v = JStr "unknown")
  ∧ (∃ message sev,
       _handle_result demo_py_str demo_response (JObj jquery_result) checked_state
       = (Ok tt,
          append_uniq
            (mkVuln "Vulnerable JavaScript library in use"
                    (to_string demo_py_str message) sev
                    (get_id demo_response) "retirejs" (get_uri demo_response))
            checked_state)
       ∧ occurs_in (" - unknown") (to_string demo_py_str message)
       ∧ get_severity message = Ok sev).
Proof.
  split.
  - exists (mkRetireJSVulnerability (JStr "unknown") (JStr "unknown") (JArr [])).
    split; [reflexivity|]. split; [reflexivity|].
    exact (proj1 (proj1 (vulnerability_defaults demo_py_str)
                        bare_entry
                        (mkRetireJSVulnerability (JStr "unknown") (JStr "unknown")
                           (JArr []))
                        eq_refl)
                 eq_refl).
  - assert (Forall well_formed_entry
              ([JObj [("severity", JStr "medium");
                      ("identifiers", JObj [("summary", JStr "Selector XSS")])]]
               ++ JObj [] :: [])) as Hshape.
    { constructor; [|constructor; [|constructor]].
      - eexists. split; [reflexivity|]. split; eexists; reflexivity.
      - eexists. split; [reflexivity|]. split; eexists; reflexivity. }
    assert (default JNull (dict_lookup jquery_result "version") ≠ JNull) as Hver
      by discriminate.
    assert (default JNull (dict_lookup jquery_result "component") ≠ JNull) as Hcomp
      by discriminate.
    destruct (proj2 (proj2 (proj2 (proj2 (proj2 (vulnerability_defaults demo_py_str)))))
                demo_response jquery_result
                [JObj [("severity", JStr "medium");
                       ("identifiers", JObj [("summary", JStr "Selector XSS")])]]
                [] [] checked_state Hver Hcomp eq_refl Hshape)
      as (message & sev & pre & v & post & Hrun & _ & _ & _ & _ & _ & Hentry & Hline
          & Hsev & _).
    exists message, sev. split; [exact Hrun|]. split; [|exact Hsev].
    injection Hentry as <-. exact Hline.
Defined.

(** * Further properties of the plugin *)

Lemma checks_app (t u : list event) : checks (t ++ u) = checks t ++ checks u.
Proof.
  induction t as [|ev t IH]; simpl; [reflexivity|].
  destruct ev; simpl; rewrite ?IH; reflexivity.
Qed.

Lemma same_checks_refl st : same_checks st st.
Proof. reflexivity. Qed.

Lemma same_checks_trans a b c : same_checks a b → same_checks b c → same_checks a c.
Proof. unfold same_checks. congruence. Qed.

Lemma same_kb_refl st : same_kb st st.
Proof. reflexivity. Qed.

Lemma same_kb_trans a b c : same_kb a b → same_kb b c → same_kb a c.
Proof. unfold same_kb. congruence. Qed.

(** Closes the goals the [modify] steps leave for the relations above. *)
Ltac frame_more :=
  intros;
  lazymatch goal with
  | |- same_kb _ _ => exact eq_refl
  | |- same_checks _ _ =>
      unfold same_checks, emit; simpl;
      rewrite ?checks_app; simpl; rewrite ?app_nil_r; reflexivity
  | _ => frame_modify
  end.

Section Further.

Variable md5 : string -> string.
Variable json_loads : string -> option json.
Variable retire : string -> gmap string string -> gmap string string * Z.
Variable mktemp : string -> string -> gmap string string -> string.
Variable py_str : json -> string.

(** *** The self-check, seen from its callers *)

(** [_retirejs_exit_code] always returns; afterwards the check counts as
    run and the value returned is the stored one.  It leaves the cache and
    the knowledge base alone and starts no analysis. *)
Lemma exit_code_total st :
  ∃ ok st1,
    _retirejs_exit_code retire mktemp st = (Ok ok, st1)
    ∧ _retirejs_exit_code_was_run st1 = true
    ∧ _retirejs_exit_code_result st1 = ok
    ∧ _analyzed_hashes st1 = _analyzed_hashes st
    ∧ kb st1 = kb st
    ∧ analyses (trace st1) = analyses (trace st)
    ∧ (_retirejs_exit_code_was_run st = true → st1 = st).
Proof.
  destruct (_retirejs_exit_code_was_run st) eqn:Hrun.
  - exists (_retirejs_exit_code_result st), st.
    rewrite (exit_code_memo retire mktemp st Hrun). repeat split; assumption.
  - pose proof (exit_code_first retire mktemp st Hrun) as Hfirst. cbv zeta in Hfirst.
    eexists _, _. split; [exact Hfirst|].
    cbn [set_exit_code after _retirejs_exit_code_was_run _retirejs_exit_code_result
         _analyzed_hashes kb trace].
    repeat split.
    + rewrite analyses_app.
      match goal with |- context [if ?c then _ else _] => destruct c end;
        simpl; apply app_nil_r.
    + intros [=].
Qed.

(** [grep], once the self-check has answered. *)
Lemma grep_after_check req r st ok st1 :
  _retirejs_exit_code retire mktemp st = (Ok ok, st1) →
  grep md5 json_loads retire mktemp py_str req r st =
    if negb (opt_truthy ok && gate req r) then (Ok tt, st1)
    else
      match _should_analyze md5 r st1 with
      | (Ok true, st2) => _analyze_response json_loads retire mktemp py_str r st2
      | (Ok false, st2) => (Ok tt, st2)
      | (Raise e, st2) => (Raise e, st2)
      end.
Proof.
  intros Hcheck. unfold grep, gate. unfold bind at 1. rewrite Hcheck.
  destruct (opt_truthy ok); cbn [negb andb]; [|reflexivity].
  destruct (str_in _ _); cbn [negb andb]; [|reflexivity].
  destruct (Z_in _ _); cbn [negb andb]; [|reflexivity].
  destruct (is_text_or_html r); cbn [negb andb]; [|reflexivity].
  unfold bind. destruct (_should_analyze md5 r st1) as [[[|]|e] st2]; reflexivity.
Qed.

Lemma gate_false req r :
  get_method req ≠ "GET" ∨ get_code r ≠ 200 ∨ is_text_or_html r = false →
  gate req r = false.
Proof.
  unfold gate, str_in, Z_in, METHODS, HTTP_CODES. cbn [existsb].
  intros [Hm|[Hc|Ht]].
  - apply String.eqb_neq in Hm. rewrite Hm. reflexivity.
  - apply Z.eqb_neq in Hc. rewrite Hc, andb_false_r. reflexivity.
  - rewrite Ht, andb_false_r. reflexivity.
Qed.

(** X1.  A request that is not a GET, a response whose code is not 200 or
    that is not text or HTML: [grep] returns normally having done nothing
    beyond the self-check.  The cache and the knowledge base are as before
    and no analysis was started. *)
Theorem grep_turns_down req r st :
  get_method req ≠ "GET" ∨ get_code r ≠ 200 ∨ is_text_or_html r = false →
  let out := grep md5 json_loads retire mktemp py_str req r st in
  fst out = Ok tt
  ∧ snd out = snd (_retirejs_exit_code retire mktemp st)
  ∧ _analyzed_hashes (snd out) = _analyzed_hashes st
  ∧ kb (snd out) = kb st
  ∧ analyses (trace (snd out)) = analyses (trace st).
Proof.
  intros Hgate out. subst out.
  destruct (exit_code_total st) as (ok & st1 & Hcheck & _ & _ & Hh & Hk & Ha & _).
  rewrite (grep_after_check req r st ok st1 Hcheck), Hcheck, (gate_false req r Hgate).
  rewrite andb_false_r. cbn [negb fst snd]. repeat split; assumption.
Qed.

(** *** Running the same calls again *)

Lemma analyze_response_check r :
  keeps same_check (_analyze_response json_loads retire mktemp py_str r).
Proof.
  unfold _analyze_response, _save_response_to_file, _analyze_file, NamedTemporaryFile,
    file_write, run_with_watchdog, file_read, py_json_loads, _remove_file, os_remove,
    _json_to_kb, _handle_finding, _handle_result, kb_append_uniq.
  frame same_check_refl same_check_trans;
    try (unfold append_uniq; destruct (existsb _ _)); frame_more.
Qed.

Lemma analyze_response_checks r :
  keeps same_checks (_analyze_response json_loads retire mktemp py_str r).
Proof.
  unfold _analyze_response, _save_response_to_file, _analyze_file, NamedTemporaryFile,
    file_write, run_with_watchdog, file_read, py_json_loads, _remove_file, os_remove,
    _json_to_kb, _handle_finding, _handle_result, kb_append_uniq.
  frame same_checks_refl same_checks_trans;
    try (unfold append_uniq; destruct (existsb _ _)); frame_more.
Qed.

(** After the self-check, the rest of [grep] keeps the stored answer and
    starts no other self-check. *)
Lemma grep_rest req r st ok st1 :
  _retirejs_exit_code retire mktemp st = (Ok ok, st1) →
  let st' := snd (grep md5 json_loads retire mktemp py_str req r st) in
  same_check st1 st' ∧ same_checks st1 st'.
Proof.
  intros Hcheck. cbv zeta. rewrite (grep_after_check req r st ok st1 Hcheck).
  destruct (negb _); [split; [apply same_check_refl | apply same_checks_refl]|].
  rewrite should_analyze_spec; cbv zeta.
  destruct (decide _); [split; [apply same_check_refl | apply same_checks_refl]|].
  destruct (decide _); [split; [split|]; reflexivity|].
  match goal with
  | |- context [_analyze_response _ _ _ _ _ ?s] =>
      pose proof (analyze_response_check r s) as [Hc1 Hc2];
      pose proof (analyze_response_checks r s) as Hc3
  end.
  unfold same_check, same_checks in *. cbn [set_hashes _retirejs_exit_code_was_run
    _retirejs_exit_code_result trace] in *. auto.
Qed.

Lemma grep_noop req r st :
  settled md5 req r st →
  grep md5 json_loads retire mktemp py_str req r st = (Ok tt, st).
Proof.
  intros [Hrun Hwhy].
  rewrite (grep_after_check req r st _ st (exit_code_memo retire mktemp st Hrun)).
  destruct Hwhy as [Hoff|[Hgate|Hseen]].
  - rewrite Hoff. reflexivity.
  - rewrite Hgate, andb_false_r. reflexivity.
  - destruct (negb _); [reflexivity|].
    rewrite should_analyze_spec; cbv zeta.
    destruct (decide _); [reflexivity | contradiction].
Qed.

Lemma grep_settles req r st :
  settled md5 req r (snd (grep md5 json_loads retire mktemp py_str req r st)).
Proof.
  destruct (exit_code_total st) as (ok & st1 & Hcheck & Hrun & Hres & _).
  destruct (grep_rest req r st ok st1 Hcheck) as [[Hc1 Hc2] _].
  split; [congruence|].
  rewrite Hc2, Hres.
  rewrite (grep_after_check req r st ok st1 Hcheck).
  destruct (opt_truthy ok); [|by left].
  destruct (gate req r); [|right; by left].
  right; right. cbn [andb negb].
  rewrite should_analyze_spec; cbv zeta.
  destruct (decide _) as [Hu|Hu]; [exact Hu|].
  destruct (decide _); [cbn [snd set_hashes _analyzed_hashes]; set_solver|].
  match goal with
  | |- context [_analyze_response _ _ _ _ _ ?s] =>
      pose proof (analyze_response_hashes json_loads retire mktemp py_str r s) as Hh
  end.
  unfold same_hashes in Hh. rewrite Hh. cbn [set_hashes _analyzed_hashes]. set_solver.
Qed.

Lemma settled_grep c req r st :
  settled md5 (fst c) (snd c) st →
  settled md5 (fst c) (snd c) (snd (grep md5 json_loads retire mktemp py_str req r st)).
Proof.
  intros [Hrun Hwhy].
  destruct (grep_rest req r st _ st (exit_code_memo retire mktemp st Hrun)) as [[Hc1 Hc2] _].
  destruct (grep_step md5 json_loads retire mktemp py_str req r st) as [Hgrow _].
  split; [congruence|]. rewrite Hc2.
  destruct Hwhy as [?|[?|Hseen]]; [by left | right; by left | right; right].
  unfold hashes_grow in Hgrow. set_solver.
Qed.

Lemma session_app a : ∀ b st,
  session md5 json_loads retire mktemp py_str (a ++ b) st
  = session md5 json_loads retire mktemp py_str b
      (session md5 json_loads retire mktemp py_str a st).
Proof.
  induction a as [|[req r] a IH]; intros b st; simpl; [reflexivity | apply IH].
Qed.

Lemma settled_session c calls : ∀ st,
  settled md5 (fst c) (snd c) st →
  settled md5 (fst c) (snd c) (session md5 json_loads retire mktemp py_str calls st).
Proof.
  induction calls as [|[req r] rest IH]; intros st Hc; simpl; [exact Hc|].
  apply IH, settled_grep, Hc.
Qed.

Lemma session_settles calls : ∀ st,
  Forall (λ c, settled md5 (fst c) (snd c)
                 (session md5 json_loads retire mktemp py_str calls st)) calls.
Proof.
  induction calls as [|[req r] rest IH]; intros st; simpl; constructor.
  - apply (settled_session (req, r)), grep_settles.
  - apply IH.
Qed.

Lemma session_settled_id calls : ∀ st,
  Forall (λ c, settled md5 (fst c) (snd c) st) calls →
  session md5 json_loads retire mktemp py_str calls st = st.
Proof.
  induction calls as [|[req r] rest IH]; intros st Hall; simpl; [reflexivity|].
  inversion Hall as [|c l Hc Hrest]; subst.
  rewrite (grep_noop req r st Hc). apply IH, Hrest.
Qed.

(** X2.  What a session has handled it never handles again: after a
    session, [grep] on any of its calls returns at once and changes nothing,
    so running the whole list of calls a second time leaves the state (cache,
    knowledge base, files, log) exactly as the first run left it. *)
Theorem session_idempotent calls st :
  let st' := session md5 json_loads retire mktemp py_str calls st in
  (∀ req r, In (req, r) calls →
     grep md5 json_loads retire mktemp py_str req r st' = (Ok tt, st'))
  ∧ session md5 json_loads retire mktemp py_str (calls ++ calls) st = st'.
Proof.
  cbv zeta. split.
  - intros req r Hin. apply grep_noop.
    pose proof (session_settles calls st) as Hall.
    rewrite List.Forall_forall in Hall. exact (Hall (req, r) Hin).
  - rewrite session_app. apply session_settled_id, session_settles.
Qed.

(** *** The self-check is run once *)

Lemma grep_checked req r st :
  let st' := snd (grep md5 json_loads retire mktemp py_str req r st) in
  _retirejs_exit_code_was_run st' = true
  ∧ checks (trace st') = checks (trace (snd (_retirejs_exit_code retire mktemp st))).
Proof.
  cbv zeta.
  destruct (exit_code_total st) as (ok & st1 & Hcheck & Hrun & _).
  destruct (grep_rest req r st ok st1 Hcheck) as [[Hc1 _] Hc3].
  rewrite Hcheck. cbn [snd]. split; [congruence | exact Hc3].
Qed.

Lemma session_checks_run calls : ∀ st,
  _retirejs_exit_code_was_run st = true →
  checks (trace (session md5 json_loads retire mktemp py_str calls st))
  = checks (trace st).
Proof.
  induction calls as [|[req r] rest IH]; intros st Hrun; simpl; [reflexivity|].
  destruct (grep_checked req r st) as [Hrun' Hchecks].
  rewrite (IH _ Hrun'), Hchecks, (exit_code_memo retire mktemp st Hrun). reflexivity.
Qed.

(** X3.  In a session the self-check command is issued at most once: not at
    all when the check has been run before, and exactly once, by the first
    [grep] call, otherwise.  Its command line names the check file as the
    file to scan. *)
Theorem self_check_once calls st :
  (_retirejs_exit_code_was_run st = true →
   checks (trace (session md5 json_loads retire mktemp py_str calls st))
   = checks (trace st))
  ∧ (_retirejs_exit_code_was_run st = false → calls ≠ [] →
     let check_file := mktemp "retirejs-check-" ".w3af" (files st) in
     let files1 := <[check_file := ""]> (<[check_file := ""]> (files st)) in
     let output_file := mktemp "retirejs-output-" ".w3af" files1 in
     checks (trace (session md5 json_loads retire mktemp py_str calls st))
     = checks (trace st) ++ [RETIRE_CMD output_file check_file]).
Proof.
  split; [apply session_checks_run|].
  intros Hrun Hcalls. cbv zeta.
  destruct calls as [|[req r] rest]; [contradiction|]. cbn [session].
  destruct (grep_checked req r st) as [Hrun' Hchecks].
  rewrite (session_checks_run rest _ Hrun'), Hchecks.
  pose proof (exit_code_first retire mktemp st Hrun) as Hfirst. cbv zeta in Hfirst.
  rewrite Hfirst. cbn [snd set_exit_code after trace].
  rewrite checks_app. f_equal.
  match goal with |- context [if ?c then _ else _] => destruct c end; reflexivity.
Qed.

(** *** A fresh response is analysed *)

Lemma analyses_logs (evs : list event) : Forall is_log evs → analyses evs = [].
Proof.
  induction 1 as [|ev evs Hev _ IH]; simpl; [reflexivity|].
  destruct ev; simpl in Hev; try contradiction; exact IH.
Qed.

Lemma analyze_file_run response_file st :
  let json_file := mktemp "retirejs-output-" ".w3af" (files st) in
  let cmd := RETIRE_CMD json_file response_file in
  let ran := retire cmd (<[json_file := ""]> (files st)) in
  ∃ doc evs,
    _analyze_file json_loads retire mktemp response_file st
    = (Ok doc, after st (delete json_file (fst ran)) evs)
    ∧ analyses evs = [cmd].
Proof.
  cbv zeta. rewrite analyze_file_spec; cbv zeta.
  destruct (_ =? 0); [|destruct (_ !! _) as [data|]; [destruct (json_loads data)|]];
    eexists _, _; (split; [reflexivity|reflexivity]).
Qed.

Lemma analyze_response_run r st res st' :
  let response_file := mktemp "retirejs-response-" ".w3af.js" (files st) in
  let files1 := <[response_file := get_body r]> (<[response_file := ""]> (files st)) in
  let json_file := mktemp "retirejs-output-" ".w3af" files1 in
  _analyze_response json_loads retire mktemp py_str r st = (res, st') →
  analyses (trace st') = analyses (trace st) ++ [RETIRE_CMD json_file response_file].
Proof.
  cbv zeta. unfold _analyze_response.
  unfold bind at 1. rewrite save_response_spec; cbv zeta.
  unfold bind at 1.
  match goal with
  | |- context [_analyze_file _ _ _ ?f ?s] =>
      destruct (analyze_file_run f s) as (doc & evs & Hrun & Hcmd)
  end.
  cbn [files after] in Hrun, Hcmd. rewrite Hrun.
  unfold bind at 1. rewrite remove_file_spec.
  match goal with
  | |- context [_json_to_kb _ _ _ ?s] => set (S := s)
  end.
  destruct (json_to_kb_quiet py_str r doc S) as (_ & _ & _ & logs & Htrace & Hlogs).
  intros Hout. rewrite Hout in Htrace. cbn [snd] in Htrace.
  rewrite Htrace. subst S. cbn [after trace].
  rewrite !analyses_app, Hcmd, (analyses_logs _ Hlogs). simpl.
  rewrite !app_nil_r. reflexivity.
Qed.

(** X4.  With the self-check passed, a GET request and a 200 text response
    whose two fingerprints are new and differ: [grep] records both
    fingerprints and runs the analyzer exactly once, on the file that holds
    the response body, with a fresh output file; when it returns the files
    are what the analyzer left, less those two. *)
Theorem grep_analyses_fresh_response req r st :
  _retirejs_exit_code_was_run st = true →
  _retirejs_exit_code_result st = Some true →
  get_method req = "GET" → get_code r = 200 → is_text_or_html r = true →
  md5 (get_url r) ∉ _analyzed_hashes st →
  md5 (get_body r) ∉ _analyzed_hashes st →
  md5 (get_url r) ≠ md5 (get_body r) →
  let response_file := mktemp "retirejs-response-" ".w3af.js" (files st) in
  let files1 := <[response_file := get_body r]> (<[response_file := ""]> (files st)) in
  let json_file := mktemp "retirejs-output-" ".w3af" files1 in
  let cmd := RETIRE_CMD json_file response_file in
  let st' := snd (grep md5 json_loads retire mktemp py_str req r st) in
  analyses (trace st') = analyses (trace st) ++ [cmd]
  ∧ _analyzed_hashes st'
    = {[md5 (get_body r)]} ∪ ({[md5 (get_url r)]} ∪ _analyzed_hashes st)
  ∧ files st'
    = delete response_file
        (delete json_file (fst (retire cmd (<[json_file := ""]> files1)))).
Proof.
  intros Hrun Hres Hm Hc Ht Hu Hb Hne. cbv zeta.
  rewrite (grep_after_check req r st _ st (exit_code_memo retire mktemp st Hrun)).
  rewrite Hres. unfold gate, str_in, Z_in, METHODS, HTTP_CODES.
  rewrite Hm, Hc, Ht. cbn [existsb opt_truthy andb negb orb].
  replace (String.eqb "GET" "GET") with true by reflexivity.
  cbn [Z.eqb Pos.eqb andb negb orb].
  rewrite should_analyze_spec; cbv zeta.
  destruct (decide _); [contradiction|].
  destruct (decide _) as [Hin|_]; [set_solver|].
  match goal with
  | |- context [_analyze_response _ _ _ _ _ ?s] =>
      destruct (_analyze_response json_loads retire mktemp py_str r s)
        as [res st'] eqn:Hout;
      pose proof (analyze_response_run r s res st' Hout) as Hrun';
      pose proof (analyze_response_effect json_loads retire mktemp py_str r s res st' Hout)
        as [Hfiles _];
      pose proof (analyze_response_hashes json_loads retire mktemp py_str r s) as Hh
  end.
  cbv zeta in Hrun', Hfiles. unfold same_hashes in Hh. rewrite Hout in Hh.
  cbn [snd set_hashes files trace _analyzed_hashes] in *.
  repeat split; assumption.
Qed.

(** *** Exceptions *)

Lemma raises_only_ret allowed {A} (a : A) : raises_only allowed (ret a).
Proof. intros st e [=]. Qed.

Lemma raises_only_modify allowed f : raises_only allowed (modify f).
Proof. intros st e [=]. Qed.

Lemma raises_only_lift allowed {A} (r : result A) :
  (∀ e, r = Raise e → allowed e) → raises_only allowed (lift r).
Proof. intros Hr st e He. apply Hr. exact He. Qed.

Lemma raises_only_bind allowed {A B} (c : M A) (k : A → M B) :
  raises_only allowed c → (∀ a, raises_only allowed (k a)) →
  raises_only allowed (bind c k).
Proof.
  intros Hc Hk st e. unfold bind. specialize (Hc st).
  destruct (c st) as [[a|e'] st1]; cbn [fst] in *.
  - apply Hk.
  - intros [= <-]. by apply Hc.
Qed.

Lemma raises_only_for_each allowed {A} (items : list A) (body : A → M unit) :
  (∀ x, raises_only allowed (body x)) → raises_only allowed (for_each items body).
Proof.
  intros Hb. induction items as [|x rest IH]; cbn [for_each].
  - apply raises_only_ret.
  - apply raises_only_bind; [apply Hb | intros _; exact IH].
Qed.

Lemma py_get_raises obj key dflt e : py_get obj key dflt = Raise e → shape_error e.
Proof. destruct obj; intros [= <-]; by left. Qed.

Lemma py_iter_raises v e : py_iter v = Raise e → shape_error e.
Proof. destruct v; intros [= <-]; by right. Qed.

Lemma retire_vuln_of_raises j e : retire_vuln_of j = Raise e → shape_error e.
Proof.
  unfold retire_vuln_of, rbind.
  destruct (py_get j "severity" _) eqn:H1; [|intros [= <-]; eapply py_get_raises, H1].
  destruct (py_get j "identifiers" _) as [ids|] eqn:H2;
    [|intros [= <-]; eapply py_get_raises, H2].
  destruct (py_get ids "summary" _) eqn:H3; [|intros [= <-]; eapply py_get_raises, H3].
  destruct (py_get j "info" _) eqn:H4; [|intros [= <-]; eapply py_get_raises, H4].
  intros [=].
Qed.

Lemma add_vulnerabilities_raises items : ∀ message e,
  add_vulnerabilities message items = Raise e → shape_error e.
Proof.
  induction items as [|j rest IH]; intros message e; cbn [add_vulnerabilities];
    [intros [=]|].
  unfold rbind. destruct (retire_vuln_of j) eqn:Hj.
  - apply IH.
  - intros [= <-]. eapply retire_vuln_of_raises, Hj.
Qed.

Lemma get_severity_loop_raises vs e : get_severity_loop vs = Raise e → e = AttributeError.
Proof.
  induction vs as [|v vs IH]; cbn [get_severity_loop]; [intros [=]|].
  destruct (vuln_sev v); cbn [py_lower]; try (intros [= <-]; reflexivity).
  destruct (String.eqb _ _); [intros [=] | exact IH].
Qed.

Lemma handle_result_raises r j : raises_only shape_error (_handle_result py_str r j).
Proof.
  intros st e.
  destruct j; try (rewrite handle_result_not_obj by discriminate; intros [= <-]; by left).
  rewrite handle_result_obj; cbv zeta.
  destruct (_ || _); [intros [=]|].
  destruct (negb _); [intros [=]|].
  destruct (py_iter _) as [items|e1] eqn:Hit;
    [|intros [= <-]; eapply py_iter_raises, Hit].
  destruct (add_vulnerabilities _ _) as [message|e1] eqn:Hadd;
    [|intros [= <-]; eapply add_vulnerabilities_raises, Hadd].
  destruct (get_severity message) as [sev|e1] eqn:Hsev; [intros [=]|].
  intros [= <-]. left. eapply get_severity_loop_raises, Hsev.
Qed.

Lemma json_to_kb_raises r doc : raises_only shape_error (_json_to_kb py_str r doc).
Proof.
  unfold _json_to_kb, _handle_finding.
  apply raises_only_bind; [apply raises_only_lift, py_iter_raises|]. intros items.
  apply raises_only_for_each. intros finding.
  apply raises_only_bind; [apply raises_only_lift, py_get_raises|]. intros results.
  apply raises_only_bind; [apply raises_only_lift, py_iter_raises|]. intros entries.
  apply raises_only_for_each, handle_result_raises.
Qed.

Lemma analyze_response_raises r :
  raises_only shape_error (_analyze_response json_loads retire mktemp py_str r).
Proof.
  intros st e. unfold _analyze_response.
  unfold bind at 1. rewrite save_response_spec; cbv zeta.
  unfold bind at 1.
  match goal with
  | |- context [_analyze_file _ _ _ ?f ?s] =>
      destruct (analyze_file_run f s) as (doc & evs & Hrun & _)
  end.
  cbn [files after] in Hrun. rewrite Hrun.
  unfold bind at 1. rewrite remove_file_spec.
  apply json_to_kb_raises.
Qed.

(** X5.  Of the exceptions the plugin's own operations raise, those the
    code handles never leave [grep]: [CalledProcessError] of the self-check
    (lines 114-122), [IOError] of reading the output file and [ValueError]
    of [json.loads] (lines 212-216), and [OSError] of [os.remove] (lines
    227-230) are all caught where they arise.  What does leave [grep] is an
    [AttributeError] or a [TypeError] from interpreting the analyzer's
    document, and then one analysis has just been run.  Failures of
    [tempfile], of writing, and of starting a process or a timer, which the
    source does not handle, are not part of the embedding and not covered
    here. *)
Theorem grep_raises_shape_errors_only req r st e :
  let out := grep md5 json_loads retire mktemp py_str req r st in
  fst out = Raise e →
  shape_error e
  ∧ ∃ cmd, analyses (trace (snd out)) = analyses (trace st) ++ [cmd].
Proof.
  cbv zeta.
  destruct (exit_code_total st) as (ok & st1 & Hcheck & _ & _ & _ & _ & Ha & _).
  rewrite (grep_after_check req r st ok st1 Hcheck).
  destruct (negb _); [intros [=]|].
  rewrite should_analyze_spec; cbv zeta.
  destruct (decide _); [intros [=]|].
  destruct (decide _); [intros [=]|].
  match goal with
  | |- context [_analyze_response _ _ _ _ _ ?s] =>
      destruct (_analyze_response json_loads retire mktemp py_str r s)
        as [res st'] eqn:Hout;
      pose proof (analyze_response_raises r s e) as Hshape;
      pose proof (analyze_response_run r s res st' Hout) as Hrun
  end.
  rewrite Hout in Hshape. cbn [fst snd] in *. intros ->.
  split; [by apply Hshape|].
  cbv zeta in Hrun. cbn [set_hashes trace files] in Hrun. rewrite Ha in Hrun.
  eexists. exact Hrun.
Qed.

(** *** Documents of unexpected shape *)

(** X6.  A document that is not a list of findings.  [null], a boolean or a
    number is not iterable: [TypeError].  A non-empty string or a non-empty
    object is iterated, and its first character or key has no [get]:
    [AttributeError].  An empty string, object or list holds nothing to do.
    In every case the state is left as it was. *)
Theorem json_to_kb_not_a_list r st :
  (∀ doc, doc = JNull ∨ (∃ b, doc = JBool b) ∨ (∃ n, doc = JNum n) →
     _json_to_kb py_str r doc st = (Raise TypeError, st))
  ∧ (∀ doc, (∃ c s, doc = JStr (String c s)) ∨ (∃ kv fields, doc = JObj (kv :: fields)) →
     _json_to_kb py_str r doc st = (Raise AttributeError, st))
  ∧ (∀ doc, doc = JStr "" ∨ doc = JObj [] ∨ doc = JArr [] →
     _json_to_kb py_str r doc st = (Ok tt, st)).
Proof.
  split; [|split].
  - intros doc [->|[[b ->]|[n ->]]]; reflexivity.
  - intros doc [(c & s & ->)|(kv & fields & ->)]; reflexivity.
  - intros doc [->|[->| ->]]; reflexivity.
Qed.

Lemma for_each_stops {A} (body : A → M unit) bad e :
  (∀ st, body bad st = (Raise e, st)) →
  ∀ before after st,
    let out := for_each (before ++ bad :: after) body st in
    is_Ok (fst out) = false ∧ snd out = snd (for_each before body st).
Proof.
  intros Hbad before after. induction before as [|x before IH]; intros st; cbv zeta.
  - cbn [app for_each]. unfold bind. rewrite Hbad. split; reflexivity.
  - cbn [app for_each]. unfold bind.
    destruct (body x st) as [[[]|e'] st1]; [apply IH | split; reflexivity].
Qed.

(** X7.  In [_handle_finding], a finding without [results] holds nothing to
    do; and a result entry that is not an object stops the loop with an
    exception: the entries before it have been handled, the entries after
    it never are. *)
Theorem handle_finding_stops r fields st :
  (dict_lookup fields "results" = None →
     _handle_finding py_str r (JObj fields) st = (Ok tt, st))
  ∧ (∀ before bad after,
       dict_lookup fields "results" = Some (JArr (before ++ bad :: after)) →
       (∀ entry, bad ≠ JObj entry) →
       let out := _handle_finding py_str r (JObj fields) st in
       is_Ok (fst out) = false
       ∧ snd out = snd (for_each before (_handle_result py_str r) st)).
Proof.
  split.
  - intros Hnone. unfold _handle_finding, bind, lift, py_get. rewrite Hnone. reflexivity.
  - intros before bad after Hsome Hbad.
    unfold _handle_finding, bind, lift, py_get. rewrite Hsome. cbn [default py_iter].
    apply (for_each_stops (_handle_result py_str r) bad AttributeError).
    intros st0. apply handle_result_not_obj, Hbad.
Qed.

(** X8.  The whole effect of [_handle_result] on one entry.  If it raises,
    the state is untouched.  If it returns, either one diagnostic was logged
    and nothing else changed, or the entry is an object and one record was
    offered to the knowledge base: the record whose text renders the
    message the loop built from the entries of that object and whose
    severity is [get_severity] of that message. *)
Theorem handle_result_effect r j st :
  let out := _handle_result py_str r j st in
  match fst out with
  | Raise e => snd out = st
  | Ok _ =>
      (∃ msg, snd out = emit (OmDebug msg None) st)
      ∨ (∃ fields items message sev,
           j = JObj fields
           ∧ py_iter (default (JArr []) (dict_lookup fields "vulnerabilities")) = Ok items
           ∧ add_vulnerabilities
               (mkVulnerabilityMessage r
                  (default JNull (dict_lookup fields "component"))
                  (default JNull (dict_lookup fields "version")) [])
               items = Ok message
           ∧ get_severity message = Ok sev
           ∧ snd out
             = append_uniq
                 (mkVuln "Vulnerable JavaScript library in use"
                         (to_string py_str message) sev
                         (get_id r) "retirejs" (get_uri r)) st)
  end.
Proof.
  cbv zeta.
  destruct j; try (rewrite handle_result_not_obj by discriminate; reflexivity).
  rewrite handle_result_obj; cbv zeta.
  destruct (_ || _); [left; by eexists|].
  destruct (negb _); [left; by eexists|].
  destruct (py_iter _) as [items|e] eqn:Hiter; [|reflexivity].
  destruct (add_vulnerabilities _ _) as [message|e] eqn:Hadd; [|reflexivity].
  destruct (get_severity message) as [sev|e] eqn:Hsev; [|reflexivity].
  right. exists fields, items, message, sev.
  split; [reflexivity|]. split; [exact Hiter|]. split; [exact Hadd|].
  split; [exact Hsev | reflexivity].
Qed.

(** X9.  The [vulnerabilities] of a result with version and component: any
    value that Python takes for false ([null], [false], [0], the empty
    string, list or object) counts as no vulnerabilities and the result is
    skipped with a diagnostic; [true] or a number other than 0 is not
    iterable and the call raises [TypeError]; a non-empty string or object
    raises [AttributeError].  Nothing is written in any of these cases. *)
Theorem vulnerabilities_not_a_list r fields v st :
  default JNull (dict_lookup fields "version") ≠ JNull →
  default JNull (dict_lookup fields "component") ≠ JNull →
  dict_lookup fields "vulnerabilities" = Some v →
  let out := _handle_result py_str r (JObj fields) st in
  (py_truthy v = false →
     out = (Ok tt, emit (OmDebug MSG_NO_VULNERABILITIES None) st))
  ∧ (v = JBool true ∨ (∃ n, v = JNum n ∧ n ≠ 0) → out = (Raise TypeError, st))
  ∧ ((∃ c s, v = JStr (String c s)) ∨ (∃ kv rest, v = JObj (kv :: rest)) →
     out = (Raise AttributeError, st)).
Proof.
  intros Hver Hcomp Hv. cbv zeta. rewrite handle_result_obj; cbv zeta. rewrite Hv.
  cbn [default].
  replace (is_None (default JNull (dict_lookup fields "version"))) with false
    by (destruct (default JNull (dict_lookup fields "version")); done).
  replace (is_None (default JNull (dict_lookup fields "component"))) with false
    by (destruct (default JNull (dict_lookup fields "component")); done).
  cbn [orb]. unfold id. split; [|split].
  - intros ->. reflexivity.
  - intros [->|(n & -> & Hn)]; [reflexivity|].
    cbn [py_truthy]. apply Z.eqb_neq in Hn. rewrite Hn. reflexivity.
  - intros [(c & s & ->)|(kv & rest & ->)]; reflexivity.
Qed.

(** *** Severities that are not strings *)

Lemma get_severity_loop_below pre rest :
  Forall reported_below_high pre →
  get_severity_loop (pre ++ rest) = get_severity_loop rest.
Proof.
  induction 1 as [|v pre [[s Hs] Hlow] _ IH]; cbn [app get_severity_loop]; [reflexivity|].
  unfold reported_high in Hlow. rewrite Hs in Hlow |- *. cbn [py_lower].
  rewrite (lower_eq_ignoring_case "high" eq_refl s), Hlow. exact IH.
Qed.

(** X10.  [get_severity] reads the severities in order and the first entry
    that is "high" or is not a string decides: [MEDIUM] for "high" (later
    entries are not looked at), [AttributeError] for a severity that is not
    a string ([null], a number, ...).  [AttributeError] is the only
    exception it raises, and it takes a severity that is not a string to
    raise it. *)
Theorem get_severity_first_decides pre v post :
  Forall reported_below_high pre →
  (reported_high v = true → get_severity_loop (pre ++ v :: post) = Ok severity.MEDIUM)
  ∧ ((∀ s, vuln_sev v ≠ JStr s) →
     get_severity_loop (pre ++ v :: post) = Raise AttributeError)
  ∧ (∀ vs e, get_severity_loop vs = Raise e →
       e = AttributeError ∧ Exists (λ w, ∀ s, vuln_sev w ≠ JStr s) vs).
Proof.
  intros Hpre. split; [|split].
  - intros Hhigh. rewrite (get_severity_loop_below pre _ Hpre). cbn [get_severity_loop].
    unfold reported_high in Hhigh. destruct (vuln_sev v) as [| | |s| |]; try discriminate.
    cbn [py_lower]. rewrite (lower_eq_ignoring_case "high" eq_refl s), Hhigh. reflexivity.
  - intros Hv. rewrite (get_severity_loop_below pre _ Hpre). cbn [get_severity_loop].
    destruct (vuln_sev v) as [| | |s| |]; try reflexivity. by destruct (Hv s).
  - intros vs e Hraise. split; [exact (get_severity_loop_raises vs e Hraise)|].
    induction vs as [|w vs IH]; cbn [get_severity_loop] in Hraise; [discriminate|].
    destruct (vuln_sev w) as [| | |s| |] eqn:Hw; cbn [py_lower] in Hraise;
      try (apply Exists_cons_hd; intros s'; rewrite Hw; discriminate).
    destruct (String.eqb _ _); [discriminate|]. apply Exists_cons_tl, IH, Hraise.
Qed.

(** *** Runs that find nothing *)

(** X11.  When the analyzer ends with status 0 (whatever it left in the
    output file), or ends with another status and the output file is
    missing, unparsable or holds the empty list, [_analyze_response] returns
    normally and the knowledge base is as before. *)
Theorem nothing_found_nothing_written r st :
  let response_file := mktemp "retirejs-response-" ".w3af.js" (files st) in
  let files1 := <[response_file := get_body r]> (<[response_file := ""]> (files st)) in
  let json_file := mktemp "retirejs-output-" ".w3af" files1 in
  let ran := retire (RETIRE_CMD json_file response_file) (<[json_file := ""]> files1) in
  snd ran = 0 ∨ default (JArr []) (fst ran !! json_file ≫= json_loads) = JArr [] →
  let out := _analyze_response json_loads retire mktemp py_str r st in
  fst out = Ok tt ∧ kb (snd out) = kb st.
Proof.
  cbv zeta. intros Hnothing.
  enough (∃ st', _analyze_response json_loads retire mktemp py_str r st = (Ok tt, st')
                 ∧ kb st' = kb st) as (st' & -> & Hkb) by (split; [reflexivity | exact Hkb]).
  unfold _analyze_response.
  unfold bind at 1. rewrite save_response_spec; cbv zeta.
  unfold bind at 1. rewrite analyze_file_spec; cbv zeta. cbn [files after].
  destruct (retire _ _) as [fs returncode]; cbn [fst snd] in *.
  assert ((if returncode =? 0 then JArr []
           else default (JArr []) (fs !! mktemp "retirejs-output-" ".w3af"
                  (<[mktemp "retirejs-response-" ".w3af.js" (files st) := get_body r]>
                     (<[mktemp "retirejs-response-" ".w3af.js" (files st) := ""]>
                        (files st))) ≫= json_loads)) = JArr []) as Hdoc.
  { destruct (Z.eqb_spec returncode 0) as [|Hrc]; [reflexivity|].
    destruct Hnothing; [contradiction | assumption]. }
  destruct (returncode =? 0).
  - unfold bind at 1. rewrite remove_file_spec. eexists. split; reflexivity.
  - destruct (fs !! _) as [data|]; cbn [mbind option_bind] in Hdoc;
      [destruct (json_loads data) as [doc|];
       cbn [default from_option id] in Hdoc; [subst doc|]|];
      unfold bind at 1; rewrite remove_file_spec; eexists; split; reflexivity.
Qed.

(** *** Where records and fingerprints come from *)

Lemma kb_adds_refl r st : kb_adds r st st.
Proof. intros v Hv. by left. Qed.

Lemma kb_adds_trans r a b c : kb_adds r a b → kb_adds r b c → kb_adds r a c.
Proof.
  intros Hab Hbc v Hv. destruct (Hbc v Hv) as [Hb|Hmade]; [exact (Hab v Hb) | by right].
Qed.

Lemma handle_result_kb_adds r j : keeps (kb_adds r) (_handle_result py_str r j).
Proof.
  intros st.
  destruct j; try (rewrite handle_result_not_obj by discriminate; apply kb_adds_refl).
  rewrite handle_result_obj; cbv zeta.
  destruct (_ || _); [intros v Hv; by left|].
  destruct (negb _); [intros v Hv; by left|].
  destruct (py_iter _) as [items|e]; [|apply kb_adds_refl].
  destruct (add_vulnerabilities _ _) as [message|e]; [|apply kb_adds_refl].
  destruct (get_severity message) as [sev|e] eqn:Hsev; [|apply kb_adds_refl].
  intros v Hv. cbn [snd] in Hv. apply append_uniq_kb in Hv as [Hv| ->]; [by left|].
  right. repeat split. exact (get_severity_loop_range _ _ Hsev).
Qed.

Lemma grep_kb_adds req r :
  keeps (kb_adds r) (grep md5 json_loads retire mktemp py_str req r).
Proof.
  unfold grep, _retirejs_exit_code, _should_analyze, _analyze_response,
    _save_response_to_file, _analyze_file, NamedTemporaryFile, file_write,
    check_output, run_with_watchdog, file_read, py_json_loads, _remove_file,
    os_remove, _json_to_kb, _handle_finding.
  frame (kb_adds_refl r) (kb_adds_trans r);
    first [apply handle_result_kb_adds | (intros v Hv; left; exact Hv)].
Qed.

Lemma grep_turned_down_state req r st :
  gate req r = false →
  snd (grep md5 json_loads retire mktemp py_str req r st)
  = snd (_retirejs_exit_code retire mktemp st).
Proof.
  intros Hgate.
  destruct (exit_code_total st) as (ok & st1 & Hcheck & _).
  rewrite (grep_after_check req r st ok st1 Hcheck), Hcheck, Hgate, andb_false_r.
  reflexivity.
Qed.

(** X12.  Every record a session adds to the knowledge base was made for a
    response of the session that passed the three tests of [grep]: it has
    the fixed name, the plugin's name, that response's id and URI, and
    severity [MEDIUM] or [LOW]. *)
Theorem session_records_provenance calls : ∀ st v,
  v ∈ kb (session md5 json_loads retire mktemp py_str calls st) →
  v ∈ kb st
  ∨ ∃ req r, In (req, r) calls ∧ gate req r = true ∧ made_for r v.
Proof.
  induction calls as [|[req r] rest IH]; intros st v Hv; cbn [session] in Hv; [by left|].
  destruct (IH _ v Hv) as [Hin|(req' & r' & Hin & Hgate & Hmade)].
  - destruct (gate req r) eqn:Hgate.
    + destruct (grep_kb_adds req r st v Hin) as [Hold|Hmade]; [by left|].
      right. exists req, r. split; [by left | by split].
    + rewrite (grep_turned_down_state req r st Hgate) in Hin. left.
      destruct (exit_code_total st) as (ok & st1 & Hcheck & _ & _ & _ & Hkb & _).
      rewrite Hcheck in Hin. cbn [snd] in Hin. by rewrite <- Hkb.
  - right. exists req', r'. split; [by right | by split].
Qed.

Lemma grep_cache_within req r st :
  cache_within
    (if gate req r then {[md5 (get_url r); md5 (get_body r)]} else ∅)
    st (snd (grep md5 json_loads retire mktemp py_str req r st)).
Proof.
  unfold cache_within.
  destruct (exit_code_total st) as (ok & st1 & Hcheck & _ & _ & Hh & _).
  rewrite (grep_after_check req r st ok st1 Hcheck).
  destruct (opt_truthy ok); cbn [andb negb snd]; [|rewrite Hh; set_solver].
  destruct (gate req r); cbn [negb snd]; [|rewrite Hh; set_solver].
  rewrite should_analyze_spec; cbv zeta.
  destruct (decide _); cbn [snd]; [rewrite Hh; set_solver|].
  destruct (decide _); cbn [snd set_hashes _analyzed_hashes]; [rewrite Hh; set_solver|].
  match goal with
  | |- context [_analyze_response _ _ _ _ _ ?s] =>
      pose proof (analyze_response_hashes json_loads retire mktemp py_str r s) as Hkeep
  end.
  unfold same_hashes in Hkeep. rewrite Hkeep. cbn [set_hashes _analyzed_hashes].
  rewrite Hh. set_solver.
Qed.

(** X13.  The cache after a session holds, besides what it held before,
    only MD5 digests of URLs and bodies of responses of the session that
    passed the three tests of [grep]: a response that is turned down for its
    method, code or content type leaves no fingerprint. *)
Theorem session_cache_provenance calls : ∀ st h,
  h ∈ _analyzed_hashes (session md5 json_loads retire mktemp py_str calls st) →
  h ∈ _analyzed_hashes st
  ∨ ∃ req r, In (req, r) calls ∧ gate req r = true
             ∧ (h = md5 (get_url r) ∨ h = md5 (get_body r)).
Proof.
  induction calls as [|[req r] rest IH]; intros st h Hh; cbn [session] in Hh; [by left|].
  destruct (IH _ h Hh) as [Hin|(req' & r' & Hin & Hgate & Hwhich)].
  - pose proof (grep_cache_within req r st) as Hwithin. unfold cache_within in Hwithin.
    destruct (gate req r) eqn:Hgate.
    + apply Hwithin in Hin. apply elem_of_union in Hin as [Hnew|Hold]; [|by left].
      right. exists req, r. split; [by left|]. split; [exact Hgate|].
      apply elem_of_union in Hnew as [Hu|Hb].
      * left. by apply elem_of_singleton in Hu.
      * right. by apply elem_of_singleton in Hb.
    + left. apply Hwithin in Hin. set_solver.
  - right. exists req', r'. split; [by right | by split].
Qed.

(** *** A result of the documented shape is recorded *)



(** *** How many analyzer processes *)

Lemma grep_one_analysis req r st :
  let st' := snd (grep md5 json_loads retire mktemp py_str req r st) in
  analyses (trace st') = analyses (trace st)
  ∨ (gate req r = true ∧ ∃ cmd, analyses (trace st') = analyses (trace st) ++ [cmd]).
Proof.
  cbv zeta.
  destruct (exit_code_total st) as (ok & st1 & Hcheck & _ & _ & _ & _ & Ha & _).
  rewrite (grep_after_check req r st ok st1 Hcheck).
  destruct (opt_truthy ok); cbn [andb negb snd]; [|by left].
  destruct (gate req r); cbn [negb snd]; [|by left].
  rewrite should_analyze_spec; cbv zeta.
  destruct (decide _); [by left|].
  destruct (decide _); [by left|].
  match goal with
  | |- context [_analyze_response _ _ _ _ _ ?s] =>
      destruct (_analyze_response json_loads retire mktemp py_str r s)
        as [res st'] eqn:Hout;
      pose proof (analyze_response_run r s res st' Hout) as Hrun
  end.
  cbv zeta in Hrun. cbn [set_hashes trace files snd] in *. rewrite Ha in Hrun.
  right. split; [reflexivity|]. eexists. exact Hrun.
Qed.

(** X15.  One [grep] call starts at most one analysis process, and none for
    a pair that fails the tests on method, code and content type; so a
    session starts at most as many analyses as it has calls that pass
    them. *)
Theorem session_analyses_bound calls : ∀ st,
  (List.length (analyses (trace (session md5 json_loads retire mktemp py_str calls st)))
   ≤ List.length (analyses (trace st))
     + List.length (List.filter (λ c, gate (fst c) (snd c)) calls))%nat.
Proof.
  induction calls as [|[req r] rest IH]; intros st; cbn [session List.filter fst snd].
  - simpl. lia.
  - specialize (IH (snd (grep md5 json_loads retire mktemp py_str req r st))).
    destruct (grep_one_analysis req r st) as [Hsame|[Hgate [cmd Hone]]].
    + rewrite Hsame in IH. destruct (gate req r); simpl; lia.
    + rewrite Hone, List.length_app in IH. rewrite Hgate. simpl in *. lia.
Qed.

Lemma session_disabled calls st :
  _retirejs_exit_code_was_run st = true →
  _retirejs_exit_code_result st = Some false →
  session md5 json_loads retire mktemp py_str calls st = st.
Proof.
  intros Hrun Hres. induction calls as [|[req r] rest IH]; cbn [session]; [reflexivity|].
  rewrite (grep_disabled md5 json_loads retire mktemp py_str req r st Hrun Hres).
  exact IH.
Qed.

(** X16.  A plugin whose analyzer fails the self-check (a status other than
    0 on the empty file) is disabled from the first [grep] call on: however
    many calls follow, the session ends in the state the self-check left,
    with [False] stored; nothing is cached, written or analysed. *)
Theorem failed_self_check_disables calls st :
  _retirejs_exit_code_was_run st = false →
  let check_file := mktemp "retirejs-check-" ".w3af" (files st) in
  let files1 := <[check_file := ""]> (<[check_file := ""]> (files st)) in
  let output_file := mktemp "retirejs-output-" ".w3af" files1 in
  snd (retire (RETIRE_CMD output_file check_file) (<[output_file := ""]> files1)) ≠ 0 →
  calls ≠ [] →
  let st' := session md5 json_loads retire mktemp py_str calls st in
  st' = snd (_retirejs_exit_code retire mktemp st)
  ∧ _retirejs_exit_code_result st' = Some false
  ∧ _analyzed_hashes st' = _analyzed_hashes st
  ∧ kb st' = kb st
  ∧ analyses (trace st') = analyses (trace st).
Proof.
  intros Hrun. cbv zeta. intros Hrc Hcalls.
  destruct calls as [|[req r] rest]; [contradiction|]. cbn [session].
  pose proof (exit_code_first retire mktemp st Hrun) as Hfirst. cbv zeta in Hfirst.
  apply Z.eqb_neq in Hrc. rewrite Hrc in Hfirst.
  rewrite (grep_after_check req r st _ _ Hfirst). cbn [opt_truthy andb negb snd].
  rewrite session_disabled by reflexivity.
  rewrite Hfirst.
  cbn [snd set_exit_code after _retirejs_exit_code_result _analyzed_hashes kb trace].
  repeat split. rewrite analyses_app. simpl. apply app_nil_r.
Qed.

(** *** The cache never forgets *)

Lemma session_cache_grows calls : ∀ st,
  _analyzed_hashes st
  ⊆ _analyzed_hashes (session md5 json_loads retire mktemp py_str calls st).
Proof.
  induction calls as [|[req r] rest IH]; intros st; cbn [session]; [done|].
  destruct (grep_step md5 json_loads retire mktemp py_str req r st) as [Hgrow _].
  unfold hashes_grow in Hgrow. etrans; [exact Hgrow | apply IH].
Qed.

(** X17.  In a session the cache only grows, and when the session ends it
    holds the URL fingerprint and the body fingerprint of every response
    that was analysed. *)
Theorem session_cache_keeps calls st :
  let st' := session md5 json_loads retire mktemp py_str calls st in
  _analyzed_hashes st ⊆ _analyzed_hashes st'
  ∧ Forall (λ r, (md5 (get_url r) ∈ _analyzed_hashes st')
                 ∧ (md5 (get_body r) ∈ _analyzed_hashes st'))
           (analysed md5 json_loads retire mktemp py_str calls st).
Proof.
  cbv zeta. split; [apply session_cache_grows|].
  revert st. induction calls as [|[req r] rest IH]; intros st; cbn [session analysed];
    [constructor|].
  destruct (grep_step md5 json_loads retire mktemp py_str req r st) as [_ Hs].
  set (st1 := snd (grep md5 json_loads retire mktemp py_str req r st)) in *.
  apply Forall_app. split; [|apply IH].
  destruct Hs as [Hs|(_ & _ & Hu & Hb)].
  - rewrite Hs, Nat.eqb_refl. constructor.
  - pose proof (session_cache_grows rest st1) as Hgrow.
    destruct (Nat.eqb _ _); repeat constructor; set_solver.
Qed.

(** *** The watchdog *)


End Further.

(** ** Instances of the further properties *)

Lemma grep_turns_down_witness :
  get_method post_request ≠ "GET"
  ∧ kb (snd (demo_grep (Some "FINDINGS") 13 post_request demo_response (init ∅ []))) = [].
Proof.
  assert (get_method post_request ≠ "GET") as Hpost by discriminate.
  split; [exact Hpost|].
  exact (proj1 (proj2 (proj2 (proj2
           (grep_turns_down demo_md5 demo_json_loads (demo_retire (Some "FINDINGS") 13)
              demo_mktemp demo_py_str post_request demo_response (init ∅ [])
              (or_introl Hpost)))))).
Defined.

Lemma session_idempotent_witness :
  let st' := session demo_md5 demo_json_loads (demo_retire (Some "FINDINGS") 13)
               demo_mktemp demo_py_str demo_calls (init ∅ []) in
  demo_grep (Some "FINDINGS") 13 demo_request demo_response st' = (Ok tt, st').
Proof.
  refine (proj1 (session_idempotent demo_md5 demo_json_loads
                   (demo_retire (Some "FINDINGS") 13) demo_mktemp demo_py_str
                   demo_calls (init ∅ []))
                demo_request demo_response _).
  right. left. reflexivity.
Defined.

Lemma self_check_once_witness :
  checks (trace (session demo_md5 demo_json_loads (demo_retire (Some "FINDINGS") 13)
                   demo_mktemp demo_py_str demo_calls (init ∅ [])))
  = [RETIRE_CMD "/tmp/retirejs-output-x.w3af" "/tmp/retirejs-check-x.w3af"].
Proof.
  refine (proj2 (self_check_once demo_md5 demo_json_loads
                   (demo_retire (Some "FINDINGS") 13) demo_mktemp demo_py_str
                   demo_calls (init ∅ [])) _ _).
  - reflexivity.
  - discriminate.
Defined.

Lemma grep_analyses_fresh_response_witness :
  analyses (trace (snd (demo_grep (Some "FINDINGS") 13 demo_request demo_response
                          checked_state)))
  = [RETIRE_CMD "/tmp/retirejs-output-x.w3af" "/tmp/retirejs-response-x.w3af.js"].
Proof.
  refine (proj1 (grep_analyses_fresh_response demo_md5 demo_json_loads
                   (demo_retire (Some "FINDINGS") 13) demo_mktemp demo_py_str
                   demo_request demo_response checked_state _ _ _ _ _ _ _ _)).
  - reflexivity.
  - reflexivity.
  - reflexivity.
  - reflexivity.
  - reflexivity.
  - apply not_elem_of_empty.
  - apply not_elem_of_empty.
  - discriminate.
Defined.

Lemma grep_raises_shape_errors_only_witness :
  fst (grep demo_md5 odd_json_loads (demo_retire (Some "ODD") 13) demo_mktemp demo_py_str
         demo_request demo_response checked_state) = Raise AttributeError
  ∧ shape_error AttributeError.
Proof.
  assert (fst (grep demo_md5 odd_json_loads (demo_retire (Some "ODD") 13) demo_mktemp
                 demo_py_str demo_request demo_response checked_state)
          = Raise AttributeError) as Hraise by (vm_compute; reflexivity).
  split; [exact Hraise|].
  exact (proj1 (grep_raises_shape_errors_only demo_md5 odd_json_loads
                  (demo_retire (Some "ODD") 13) demo_mktemp demo_py_str
                  demo_request demo_response checked_state AttributeError Hraise)).
Defined.

Lemma json_to_kb_not_a_list_witness :
  _json_to_kb demo_py_str demo_response (JNum 7) checked_state
  = (Raise TypeError, checked_state).
Proof.
  refine (proj1 (json_to_kb_not_a_list demo_py_str demo_response checked_state)
                (JNum 7) _).
  right. right. by exists 7.
Defined.

Lemma handle_finding_stops_witness :
  kb (snd (_handle_finding demo_py_str demo_response (JObj two_results) checked_state))
  = [].
Proof.
  assert (dict_lookup two_results "results"
          = Some (JArr ([JObj empty_result] ++ JStr "oops" :: [JObj jquery_result])))
    as Hresults by reflexivity.
  assert (∀ entry, JStr "oops" ≠ JObj entry) as Hbad by discriminate.
  rewrite (proj2 (proj2 (handle_finding_stops demo_py_str demo_response two_results
                           checked_state)
                        [JObj empty_result] (JStr "oops") [JObj jquery_result]
                        Hresults Hbad)).
  reflexivity.
Defined.

Lemma vulnerabilities_not_a_list_witness :
  _handle_result demo_py_str demo_response (JObj numbered_result) checked_state
  = (Raise TypeError, checked_state).
Proof.
  refine (proj1 (proj2 (vulnerabilities_not_a_list demo_py_str demo_response
                          numbered_result (JNum 3) checked_state _ _ _)) _).
  - discriminate.
  - discriminate.
  - reflexivity.
  - right. exists 3. split; [reflexivity | discriminate].
Defined.

Lemma get_severity_first_decides_witness :
  get_severity_loop ([low_severity] ++ high_severity :: [null_severity])
  = Ok severity.MEDIUM
  ∧ get_severity_loop ([low_severity] ++ null_severity :: [high_severity])
    = Raise AttributeError.
Proof.
  assert (Forall reported_below_high [low_severity]) as Hlow.
  { repeat constructor. by exists "low". }
  split.
  - exact (proj1 (get_severity_first_decides [low_severity] high_severity
                    [null_severity] Hlow) eq_refl).
  - refine (proj1 (proj2 (get_severity_first_decides [low_severity] null_severity
                            [high_severity] Hlow)) _).
    discriminate.
Defined.

Lemma nothing_found_nothing_written_witness :
  kb (snd (_analyze_response demo_json_loads (demo_retire (Some "FINDINGS") 0)
             demo_mktemp demo_py_str demo_response checked_state)) = [].
Proof.
  refine (proj2 (nothing_found_nothing_written demo_json_loads
                   (demo_retire (Some "FINDINGS") 0) demo_mktemp demo_py_str
                   demo_response checked_state _)).
  left. reflexivity.
Defined.

Lemma session_records_provenance_witness :
  demo_record ∈ kb (session demo_md5 demo_json_loads (demo_retire (Some "FINDINGS") 13)
                      demo_mktemp demo_py_str demo_calls (init ∅ []))
  ∧ ∃ req r, In (req, r) demo_calls ∧ gate req r = true ∧ made_for r demo_record.
Proof.
  assert (kb (session demo_md5 demo_json_loads (demo_retire (Some "FINDINGS") 13)
                demo_mktemp demo_py_str demo_calls (init ∅ [])) = [demo_record])
    as Hkb by (vm_compute; reflexivity).
  assert (demo_record ∈ kb (session demo_md5 demo_json_loads
                              (demo_retire (Some "FINDINGS") 13)
                              demo_mktemp demo_py_str demo_calls (init ∅ []))) as Hin.
  { rewrite Hkb. apply list_elem_of_singleton. reflexivity. }
  split; [exact Hin|].
  destruct (session_records_provenance demo_md5 demo_json_loads
              (demo_retire (Some "FINDINGS") 13) demo_mktemp demo_py_str
              demo_calls (init ∅ []) demo_record Hin) as [Hold|Hnew].
  - cbn [init kb] in Hold. exfalso. exact (proj1 (elem_of_nil _) Hold).
  - exact Hnew.
Defined.

Lemma session_cache_provenance_witness :
  demo_md5 (get_body demo_response)
  ∈ _analyzed_hashes (session demo_md5 demo_json_loads (demo_retire (Some "FINDINGS") 13)
                        demo_mktemp demo_py_str demo_calls (init ∅ []))
  ∧ ∃ req r, In (req, r) demo_calls
             ∧ gate req r = true
             ∧ (demo_md5 (get_body demo_response) = demo_md5 (get_url r)
                ∨ demo_md5 (get_body demo_response) = demo_md5 (get_body r)).
Proof.
  assert (demo_md5 (get_body demo_response)
          ∈ _analyzed_hashes (session demo_md5 demo_json_loads
                                (demo_retire (Some "FINDINGS") 13)
                                demo_mktemp demo_py_str demo_calls (init ∅ []))) as Hin.
  { apply (bool_decide_unpack _). vm_compute. exact I. }
  split; [exact Hin|].
  destruct (session_cache_provenance demo_md5 demo_json_loads
              (demo_retire (Some "FINDINGS") 13) demo_mktemp demo_py_str
              demo_calls (init ∅ []) _ Hin) as [Hold|Hnew].
  - cbn [init _analyzed_hashes] in Hold. exfalso. exact (not_elem_of_empty _ Hold).
  - exact Hnew.
Defined.


Lemma failed_self_check_disables_witness :
  analyses (trace (session demo_md5 demo_json_loads broken_retire demo_mktemp demo_py_str
                     demo_calls (init ∅ []))) = [].
Proof.
  refine (proj2 (proj2 (proj2 (proj2
            (failed_self_check_disables demo_md5 demo_json_loads broken_retire
               demo_mktemp demo_py_str demo_calls (init ∅ []) _ _ _))))).
  - reflexivity.
  - discriminate.
  - discriminate.
Defined.

(** ** The watchdog on a concrete run *)


